(** * PyBryt student implementations: a shallow embedding of [pybryt/student.py]

    The development follows the Python module top to bottom: the
    [StudentImplementation] class (construction, pickling, the checking
    dispatcher, the plagiarism orchestrator) and the module-level [check]
    context manager.  Python objects live in an explicit store, every method
    is a computation in a state-and-exception monad over that store, and the
    generator behind [@contextmanager] is a small resumable state machine. *)

From Stdlib Require Import ZArith NArith List Lia.
From Stdlib.Strings Require Import String Ascii Byte.
From stdpp Require Import base option list gmap strings.

#[local] Set Warnings "-register-all".
Local Open Scope Z_scope.

(** ** Exceptions and outcomes *)

(** The Python exception classes that the module can raise or let through.
    [UserException] stands for whatever a checked block raises itself. *)
Inductive exn : Type :=
| TypeError
| ValueError
| AttributeError
| IndexError
| RuntimeError
| FileNotFoundError
| UnicodeError
| BinasciiError
| UnpicklingError
| UserException (tag : nat).

(** The names the specification gives to the two validation errors. *)
Definition UnsupportedInputKind : exn := TypeError.
Definition EmptyReferenceSet : exn := ValueError.

Inductive outcome (A : Type) : Type :=
| Ok (a : A)
| Raised (e : exn).
Arguments Ok {A} a.
Arguments Raised {A} e.

(** ** The monad of Python computations over a store [W] *)

Definition Py (W A : Type) : Type := W -> W * outcome A.

Definition ret {W A : Type} (a : A) : Py W A := fun w => (w, Ok a).
Definition raise {W A : Type} (e : exn) : Py W A := fun w => (w, Raised e).
Definition bind {W A B : Type} (m : Py W A) (k : A -> Py W B) : Py W B :=
  fun w =>
    match m w with
    | (w', Ok a) => k a w'
    | (w', Raised e) => (w', Raised e)
    end.
Definition lift {W A : Type} (o : outcome A) : Py W A := fun w => (w, o).
Definition get_world {W : Type} : Py W W := fun w => (w, Ok w).
Definition modify {W : Type} (f : W -> W) : Py W unit := fun w => (f w, Ok tt).

(** Runs [m] and hands its outcome back as a value, the way a [with]
    statement learns how its body ended. *)
Definition attempt {W A : Type} (m : Py W A) : Py W (outcome A) :=
  fun w => let (w', o) := m w in (w', Ok o).

Notation "x <- m ;; k" := (bind m (fun x => k))
  (at level 100, m at next level, right associativity).
Notation "m ;;; k" := (bind m (fun _ => k))
  (at level 100, right associativity).

(** A comprehension [[f(x) for x in l]]: the first raising element aborts it. *)
Fixpoint mapM {W A B : Type} (f : A -> Py W B) (l : list A) : Py W (list B) :=
  match l with
  | [] => ret []
  | x :: rest => y <- f x ;; ys <- mapM f rest ;; ret (y :: ys)
  end.

(** ** The standard library's base64 codec, as [dumps] and [loads] use it *)

Module Base64.
Local Open Scope N_scope.

Definition alphabet : list byte :=
  list_byte_of_string "ABCDEFGHIJKLMNOPQRSTUVWXYZabcdefghijklmnopqrstuvwxyz0123456789+/".

Definition BASE64_PAD : byte := "="%byte.

(** [table_b2a_base64[n]] *)
Definition b2a (n : N) : byte := nth (N.to_nat n) alphabet BASE64_PAD.



(** An [unsigned char] store: the low eight bits. *)
Definition to_uchar (n : N) : byte :=
  match Byte.of_N (N.land n 255) with
  | Some b => b
  | None => x00
  end.

Fixpoint b64encode (s : list byte) : list byte :=
  match s with
  | [] => []
  | [x] =>
      let a := Byte.to_N x in
      [b2a (N.shiftr a 2); b2a (N.shiftl (N.land a 3) 4); BASE64_PAD; BASE64_PAD]
  | [x; y] =>
      let a := Byte.to_N x in
      let b := Byte.to_N y in
      [b2a (N.shiftr a 2);
       b2a (N.lor (N.shiftl (N.land a 3) 4) (N.shiftr b 4));
       b2a (N.shiftl (N.land b 15) 2);
       BASE64_PAD]
  | x :: y :: z :: rest =>
      let a := Byte.to_N x in
      let b := Byte.to_N y in
      let c := Byte.to_N z in
      b2a (N.shiftr a 2)
      :: b2a (N.lor (N.shiftl (N.land a 3) 4) (N.shiftr b 4))
      :: b2a (N.lor (N.shiftl (N.land b 15) 2) (N.shiftr c 6))
      :: b2a (N.land c 63)
      :: b64encode rest
  end.



(** [bytes.decode("ascii")] and [str.encode("ascii")] *)
Definition is_ascii (b : byte) : bool := Byte.to_N b <? 128.

Definition decode_ascii (s : list byte) : outcome string :=
  if forallb is_ascii s then Ok (string_of_list_byte s) else Raised UnicodeError.


(** *** Checks that the round-trip proof runs over all bytes *)






End Base64.

(** ** Entities owned by the collaborators *)

(** The opaque types the module stores and forwards but never inspects. *)
Class Entities : Type := {
  Value : Type;        (* a captured snapshot *)
  Notebook : Type;     (* nbformat.NotebookNode *)
  RefImpl : Type;      (* ReferenceImplementation *)
  Result : Type;       (* ReferenceResult *)
  Messages : Type;     (* the [messages] attribute of a result *)
  Group : Type;        (* the group filter token *)
  Kwargs : Type        (* a bundle of keyword arguments *)
}.

Definition NBFORMAT_VERSION : Z := 4.

Section Model.
Context {Ent : Entities}.

(** The memory footprint: a list of tuples of objects and their timestamps. *)
Definition footprint : Type := list (Value * Z).

(** ** Python values that can reach the [ref] parameter *)
Inductive pyval : Type :=
| PyNone
| PyInt (z : Z)
| PyStr (s : string)
| PyRef (r : RefImpl)
| PyList (l : list pyval)
| PyTuple (l : list pyval).

(** [isinstance(v, str)], [isinstance(v, ReferenceImplementation)] and
    [isinstance(v, list)] *)
Definition is_str (v : pyval) : bool :=
  match v with PyStr _ => true | _ => false end.
Definition is_ref (v : pyval) : bool :=
  match v with PyRef _ => true | _ => false end.
Definition is_list (v : pyval) : bool :=
  match v with PyList _ => true | _ => false end.

(** What the constructor is given as [path_or_nb]. *)
Inductive nb_source : Type :=
| SrcNone
| SrcPath (path : string)
| SrcNotebook (n : Notebook)
| SrcOther.

(** ** The [StudentImplementation] object

    An attribute that was never assigned is [None] at the outer [option];
    [nb] and [nb_path] are themselves [Optional] in the class, so a Python
    [None] stored in them is [Some None]. *)
Record StudentImplementation : Type := MkStudent {
  nb : option (option Notebook);
  nb_path : option (option string);
  values : option footprint;
  steps : option Z
}.

Definition blank_object : StudentImplementation :=
  {| nb := None; nb_path := None; values := None; steps := None |}.

Definition set_nb (x : option Notebook) (o : StudentImplementation) :=
  {| nb := Some x; nb_path := nb_path o; values := values o; steps := steps o |}.
Definition set_nb_path (x : option string) (o : StudentImplementation) :=
  {| nb := nb o; nb_path := Some x; values := values o; steps := steps o |}.
Definition set_values (x : footprint) (o : StudentImplementation) :=
  {| nb := nb o; nb_path := nb_path o; values := Some x; steps := steps o |}.
Definition set_steps (x : Z) (o : StudentImplementation) :=
  {| nb := nb o; nb_path := nb_path o; values := values o; steps := Some x |}.

(** What [StudentImplementation.check] hands back: a bare result for a
    single reference, a list of results for a list of references. *)
Inductive check_result : Type :=
| OneResult (x : Result)
| ManyResults (l : list Result).

(** ** The store *)

(** Calls into the collaborators that leave a trace, in the order they happen. *)
Inductive call : Type :=
| CreateCollector (kwargs : Kwargs) (handle : nat)
| TracingOn (handle : nat)
| TracingOff
| ExecuteNotebook
| CreateReferences (n : nat) (kwargs : Kwargs)
| GetImplResults (r : RefImpl) (n : nat) (kwargs : Kwargs).

Record world : Type := MkWorld {
  collectors : list footprint;          (* the [observed] lists, by handle *)
  tracing : option nat;                 (* the collector installed as trace function *)
  heap : list StudentImplementation;    (* the student objects, by address *)
  files : gmap string (list byte);      (* the file system *)
  stdout : list (list Messages);        (* what [print] has written *)
  calls : list call                     (* collaborator calls so far *)
}.

Definition idle : world :=
  {| collectors := []; tracing := None; heap := []; files := ∅; stdout := []; calls := [] |}.

Definition with_collectors (x : list footprint) (w : world) : world :=
  MkWorld x (tracing w) (heap w) (files w) (stdout w) (calls w).
Definition with_tracing (x : option nat) (w : world) : world :=
  MkWorld (collectors w) x (heap w) (files w) (stdout w) (calls w).
Definition with_heap (x : list StudentImplementation) (w : world) : world :=
  MkWorld (collectors w) (tracing w) x (files w) (stdout w) (calls w).
Definition with_files (x : gmap string (list byte)) (w : world) : world :=
  MkWorld (collectors w) (tracing w) (heap w) x (stdout w) (calls w).
Definition with_stdout (x : list (list Messages)) (w : world) : world :=
  MkWorld (collectors w) (tracing w) (heap w) (files w) x (calls w).
Definition with_calls (x : list call) (w : world) : world :=
  MkWorld (collectors w) (tracing w) (heap w) (files w) (stdout w) x.

Definition record_call (c : call) : Py world unit :=
  modify (fun w => with_calls (calls w ++ [c]) w).

(** ** Object store primitives *)

(** [cls.__new__]: a fresh object with no attributes. *)
Definition new_object : Py world nat :=
  fun w => (with_heap (heap w ++ [blank_object]) w, Ok (length (heap w))).

(** The object an unpickler rebuilds, placed in the store as it is. *)
Definition place_object (o : StudentImplementation) : Py world nat :=
  fun w => (with_heap (heap w ++ [o]) w, Ok (length (heap w))).

Definition read_object (self : nat) : Py world StudentImplementation :=
  fun w =>
    match heap w !! self with
    | Some o => (w, Ok o)
    | None => (w, Raised AttributeError)
    end.

(** [self.attr = x] *)
Definition setattr (self : nat) (f : StudentImplementation -> StudentImplementation)
  : Py world unit :=
  modify (fun w => with_heap (alter f self (heap w)) w).

(** [self.attr]: an attribute that was never assigned raises. *)
Definition getattr {A : Type} (self : nat) (proj : StudentImplementation -> option A)
  : Py world A :=
  o <- read_object self ;;
  match proj o with
  | Some x => ret x
  | None => raise AttributeError
  end.

(** ** The execution engine

    Modelled from the spec: [create_collector], [tracing_on], [tracing_off]
    and [_currently_tracing] are imported from [.execution], which is not
    part of the sources at hand.  Instrumentation is process-wide state with
    one trace function installed at a time; a collector is the [observed]
    list together with the trace function [cir] that appends to it. *)
Definition _currently_tracing : Py world bool :=
  w <- get_world ;; ret (bool_decide (is_Some (tracing w))).

Definition create_collector (kwargs : Kwargs) : Py world nat :=
  w <- get_world ;;
  let handle := length (collectors w) in
  modify (with_collectors (collectors w ++ [[]])) ;;;
  record_call (CreateCollector kwargs handle) ;;;
  ret handle.

Definition tracing_on (tracing_func : nat) : Py world unit :=
  modify (with_tracing (Some tracing_func)) ;;;
  record_call (TracingOn tracing_func).

Definition tracing_off : Py world unit :=
  modify (with_tracing None) ;;;
  record_call TracingOff.

(** The contents of an [observed] list at this moment. *)
Definition read_collector (handle : nat) : Py world footprint :=
  w <- get_world ;;
  match collectors w !! handle with
  | Some fp => ret fp
  | None => raise AttributeError
  end.

(** One traced step of user code: the installed trace function, if there is
    one, appends the observation to its list. *)
Definition observe (v : Value) (t : Z) : Py world unit :=
  modify (fun w =>
    match tracing w with
    | Some handle => with_collectors (alter (fun fp => fp ++ [(v, t)]) handle (collectors w)) w
    | None => w
    end).

(** ** The collaborators *)

(** The functions imported from [.reference], [.plagiarism], [.execution],
    [nbformat], [dill] and the operating system.  A reference's [run] and
    the comparison of one peer are deterministic functions of their inputs.
    [ref_iter] is what iterating over a reference object gives: [Raised
    TypeError] for a class with no iteration protocol, which is how the
    specification describes a Reference Implementation ([run] and [load]
    only).

    [os_resolve] is what [open] makes of a path: the file it names, so that
    two spellings of one file resolve alike, or the exception it raises (an
    empty path, a missing directory).  [dill_dumps] is the pickle of an
    object or the exception pickling raises, and [dill_partial] what a
    failing [dill.dump] had already written to its file.  [dill_loads] is
    whatever unpickling does: it may raise, run code that changes the store,
    and hands back a reference to the object it rebuilt. *)
Class Collaborators : Type := {
  ref_run : RefImpl -> footprint -> option Group -> Result;
  ref_load : string -> outcome RefImpl;
  ref_iter : RefImpl -> outcome (list pyval);     (* [iter(r)] on a reference *)
  result_messages : Result -> Messages;
  nbformat_read : string -> Z -> outcome Notebook;
  execute_notebook :
    option Notebook -> option string -> list string -> option string -> outcome (Z * footprint);
  os_resolve : string -> outcome string;
  dill_dumps : StudentImplementation -> outcome (list byte);
  dill_partial : StudentImplementation -> list byte;
  dill_loads : list byte -> Py world nat;
  create_references : list StudentImplementation -> Kwargs -> outcome (list RefImpl);
  peer_result : RefImpl -> StudentImplementation -> Kwargs -> Result
}.
Context {Col : Collaborators}.

(** ** class StudentImplementation *)

(** [_execute]: runs the notebook and stores the step count and footprint. *)
Definition _execute (self : nat) (addl_filenames : list string) (output : option string)
  : Py world unit :=
  the_nb <- getattr self nb ;;
  the_path <- getattr self nb_path ;;
  record_call ExecuteNotebook ;;;
  r <- lift (execute_notebook the_nb the_path addl_filenames output) ;;
  setattr self (set_steps (fst r)) ;;;
  setattr self (set_values (snd r)).

Definition __init__ (self : nat) (path_or_nb : nb_source)
  (addl_filenames : list string) (output : option string) : Py world unit :=
  match path_or_nb with
  | SrcNone =>
      setattr self (set_nb None) ;;;
      setattr self (set_nb_path None)
  | SrcPath path =>
      n <- lift (nbformat_read path NBFORMAT_VERSION) ;;
      setattr self (set_nb (Some n)) ;;;
      setattr self (set_nb_path (Some path)) ;;;
      _execute self addl_filenames output
  | SrcNotebook n =>
      setattr self (set_nb (Some n)) ;;;
      setattr self (set_nb_path (Some EmptyString)) ;;;
      _execute self addl_filenames output
  | SrcOther => raise TypeError
  end.

(** [cls(path_or_nb, addl_filenames, output)] *)
Definition construct (path_or_nb : nb_source) (addl_filenames : list string)
  (output : option string) : Py world nat :=
  self <- new_object ;;
  __init__ self path_or_nb addl_filenames output ;;;
  ret self.

Definition from_footprint (the_footprint : footprint) (the_steps : Z) : Py world nat :=
  stu <- construct SrcNone [] None ;;
  setattr stu (set_steps the_steps) ;;;
  setattr stu (set_values the_footprint) ;;;
  ret stu.

(** [dump]: [open(dest, "wb+")] reaches the file or raises; it creates
    or truncates the file before [dill.dump] writes the pickle into it, and
    a pickling that raises leaves behind what it had written. *)
Definition dump (self : nat) (dest : string) : Py world unit :=
  f <- lift (os_resolve dest) ;;
  modify (fun w => with_files (<[f := []]> (files w)) w) ;;;
  o <- read_object self ;;
  match dill_dumps o with
  | Ok bits => modify (fun w => with_files (<[f := bits]> (files w)) w)
  | Raised e =>
      modify (fun w => with_files (<[f := dill_partial o]> (files w)) w) ;;;
      raise e
  end.

Definition dumps (self : nat) : Py world string :=
  o <- read_object self ;;
  bits <- lift (dill_dumps o) ;;
  lift (Base64.decode_ascii (Base64.b64encode bits)).



(** [r.run(self.values, group=group)] on an element of a list.  Of the
    values modelled here only a reference has a [run] to call: [None],
    integers, strings, lists and tuples have no such attribute. *)
Definition call_run (self : nat) (group : option Group) (r : pyval) : Py world Result :=
  match r with
  | PyRef r' =>
      vs <- getattr self values ;;
      ret (ref_run r' vs group)
  | _ => raise AttributeError
  end.

(** [StudentImplementation.check] *)
Definition StudentImplementation_check (self : nat) (ref : pyval) (group : option Group)
  : Py world check_result :=
  match ref with
  | PyRef r =>
      vs <- getattr self values ;;
      ret (OneResult (ref_run r vs group))
  | PyList l =>
      rs <- mapM (call_run self group) l ;;
      ret (ManyResults rs)
  | _ => raise TypeError
  end.

(** Modelled from the spec: [get_impl_results] is imported from
    [.plagiarism], which is not part of the sources at hand.  It obtains one
    result per peer from the comparator, in the order of the peers. *)
Definition get_impl_results (r : RefImpl) (student_impls : list nat) (kwargs : Kwargs)
  : Py world (list Result) :=
  record_call (GetImplResults r (length student_impls) kwargs) ;;;
  peers <- mapM read_object student_impls ;;
  ret (map (fun p => peer_result r p kwargs) peers).

Definition check_plagiarism (self : nat) (student_impls : list nat) (kwargs : Kwargs)
  : Py world (list Result) :=
  o <- read_object self ;;
  record_call (CreateReferences 1 kwargs) ;;;
  refs <- lift (create_references [o] kwargs) ;;
  match refs with
  | [] => raise IndexError
  | r0 :: _ => get_impl_results r0 student_impls kwargs
  end.

(** ** The [check] context manager *)

(** Python's [max] over a generator of integers. *)
Definition py_max (l : list Z) : outcome Z :=
  match l with
  | [] => Raised ValueError
  | x :: rest => Ok (fold_left Z.max rest x)
  end.

(** [for r in v]: the elements of a list or tuple, the characters of a
    string, whatever a reference object iterates to; [None] and integers
    cannot be iterated. *)
Definition py_iter (v : pyval) : outcome (list pyval) :=
  match v with
  | PyList l => Ok l
  | PyTuple l => Ok l
  | PyStr s => Ok (map (fun c => PyStr (String c EmptyString)) (list_ascii_of_string s))
  | PyRef r => ref_iter r
  | PyNone | PyInt _ => Raised TypeError
  end.

(** [ReferenceImplementation.load(r)] on an element of a list of strings. *)
Definition load_element (r : pyval) : Py world pyval :=
  match r with
  | PyStr s => x <- lift (ref_load s) ;; ret (PyRef x)
  | _ => raise TypeError
  end.

(** Lines 187 and 188: an identifying string is loaded and wrapped. *)
Definition load_identifier (ref : pyval) : Py world pyval :=
  match ref with
  | PyStr s => x <- lift (ref_load s) ;; ret (PyList [PyRef x])
  | _ => ret ref
  end.

(** Lines 189 to 195: a list must be non-empty, and all references or all
    identifying strings, which are then loaded. *)
Definition check_list (ref : pyval) : Py world pyval :=
  match ref with
  | PyList l =>
      if Nat.eqb (length l) 0 then raise ValueError
      else if negb (forallb is_ref l) then
        if negb (forallb is_str l) then raise TypeError
        else l' <- mapM load_element l ;; ret (PyList l')
      else ret ref
  | _ => ret ref
  end.

(** Lines 196 and 197: whatever [ref] is by now is iterated over. *)
Definition check_elements (ref : pyval) : Py world pyval :=
  items <- lift (py_iter ref) ;;
  if negb (forallb is_ref items) then raise TypeError
  else ret ref.

(** Lines 187 to 197: what becomes of the local [ref]. *)
Definition validate (ref : pyval) : Py world pyval :=
  ref <- load_identifier ref ;;
  ref <- check_list ref ;;
  check_elements ref.

(** [for r in res] over what [StudentImplementation.check] returned. *)
Definition iter_results (res : check_result) : outcome (list Result) :=
  match res with
  | ManyResults l => Ok l
  | OneResult _ => Raised TypeError
  end.

Definition print (line : list Messages) : Py world unit :=
  modify (fun w => with_stdout (stdout w ++ [line]) w).

(** Where the generator's frame is suspended, with its live locals. *)
Inductive check_frame : Type :=
| AtStart (ref : pyval) (kwargs : Kwargs)
| AtLine185 (ref : pyval) (kwargs : Kwargs)
| AtLine204 (ref : pyval) (observed : nat)
| Finished.

(** How a resumed generator gives control back. *)
Inductive resumed : Type :=
| Yielded (frame : check_frame)
| StopIteration.

(** Lines 187 to 204.  The caller's frame, [currentframe().f_back.f_back],
    is the block under the [with]; this model has that one frame only. *)
Definition check_from_line187 (ref : pyval) (kwargs : Kwargs) : Py world resumed :=
  ref <- validate ref ;;
  observed <- create_collector kwargs ;;
  tracing_on observed ;;;
  ret (Yielded (AtLine204 ref observed)).

(** Lines 206 to 210. *)
Definition check_from_line206 (ref : pyval) (observed : nat) : Py world resumed :=
  tracing_off ;;;
  fp <- read_collector observed ;;
  m <- lift (py_max (map snd fp)) ;;
  stu <- from_footprint fp m ;;
  res <- StudentImplementation_check stu ref None ;;
  rs <- lift (iter_results res) ;;
  print (map result_messages rs) ;;;
  ret StopIteration.

(** The generator function [check], resumed by [next] at a frame. *)
Definition check (frame : check_frame) : Py world resumed :=
  match frame with
  | AtStart ref kwargs =>
      active <- _currently_tracing ;;
      if active then ret (Yielded (AtLine185 ref kwargs))
      else check_from_line187 ref kwargs
  | AtLine185 ref kwargs => check_from_line187 ref kwargs
  | AtLine204 ref observed => check_from_line206 ref observed
  | Finished => ret StopIteration
  end.

(** [gen.throw(e)]: neither [yield] stands inside a [try], so the exception
    leaves the generator at once. *)
Definition check_throw (frame : check_frame) (e : exn) : Py world resumed :=
  raise e.

(** [contextlib]'s [__enter__] and [__exit__] around a generator. *)
Definition cm_enter (gen : check_frame) : Py world check_frame :=
  r <- check gen ;;
  match r with
  | Yielded frame => ret frame
  | StopIteration => raise RuntimeError     (* generator didn't yield *)
  end.

Definition cm_exit (gen : check_frame) (body : outcome unit) : Py world unit :=
  match body with
  | Ok _ =>
      r <- check gen ;;
      match r with
      | StopIteration => ret tt
      | Yielded _ => raise RuntimeError     (* generator didn't stop *)
      end
  | Raised e =>
      r <- check_throw gen e ;;
      match r with
      | StopIteration => ret tt
      | Yielded _ => raise RuntimeError
      end
  end.

(** ** Blocks of user code *)

Inductive stmt : Type :=
| Pass
| Observe (v : Value) (t : Z)            (* a traced step that yields one observation *)
| RaiseStmt (e : exn)
| Seq (s1 s2 : stmt)
| WithCheck (ref : pyval) (kwargs : Kwargs) (body : stmt).   (* [with check(ref, **kwargs): body] *)

Fixpoint exec (s : stmt) : Py world unit :=
  match s with
  | Pass => ret tt
  | Observe v t => observe v t
  | RaiseStmt e => raise e
  | Seq s1 s2 => exec s1 ;;; exec s2
  | WithCheck ref kwargs body =>
      gen <- cm_enter (AtStart ref kwargs) ;;
      ended <- attempt (exec body) ;;
      cm_exit gen ended
  end.

(** ** What the dispatcher computes, as a function of the stored footprint

    [dispatch] reads [StudentImplementation.check] off the [values]
    attribute alone; [check_reads_values] below shows the method agrees. *)

Definition run_one (vs : option footprint) (group : option Group) (r : pyval)
  : outcome Result :=
  match r, vs with
  | PyRef r', Some fp => Ok (ref_run r' fp group)
  | _, _ => Raised AttributeError
  end.

Fixpoint run_all (vs : option footprint) (group : option Group) (l : list pyval)
  : outcome (list Result) :=
  match l with
  | [] => Ok []
  | r :: rest =>
      match run_one vs group r with
      | Raised e => Raised e
      | Ok y =>
          match run_all vs group rest with
          | Raised e => Raised e
          | Ok ys => Ok (y :: ys)
          end
      end
  end.

Definition dispatch (vs : option footprint) (ref : pyval) (group : option Group)
  : outcome check_result :=
  match ref with
  | PyRef r =>
      match vs with
      | Some fp => Ok (OneResult (ref_run r fp group))
      | None => Raised AttributeError
      end
  | PyList l =>
      match run_all vs group l with
      | Ok rs => Ok (ManyResults rs)
      | Raised e => Raised e
      end
  | _ => Raised TypeError
  end.

(** The invariant the specification asks of an artifact: the step count is
    the largest timestamp of the footprint, and 0 for an empty footprint. *)
Definition step_count_invariant (o : StudentImplementation) : Prop :=
  match values o, steps o with
  | Some fp, Some n =>
      n = match py_max (map snd fp) with Ok m => m | Raised _ => 0 end
  | _, _ => False
  end.

End Model.

(** * Facts *)

(** ** The base64 codec round-trips *)

Module Base64Facts.
Import Base64.
Local Open Scope N_scope.



















End Base64Facts.

(** ** The class and the context manager *)

Section ModelFacts.
Context {Ent : Entities} {Col : Collaborators}.

Ltac py_step :=
  cbv beta iota delta [bind ret raise lift get_world modify attempt record_call
    read_object getattr setattr new_object place_object].

(** *** Store lemmas *)

Lemma lookup_snoc {A : Type} (l : list A) (x : A) : (l ++ [x]) !! length l = Some x.
Proof. induction l as [| y l IH]; [reflexivity | exact IH]. Qed.

Lemma alter_snoc {A : Type} (f : A -> A) (l : list A) (x : A) :
  alter f (length l) (l ++ [x]) = l ++ [f x].
Proof.
  induction l as [| y l IH]; [reflexivity |].
  cbn. f_equal. exact IH.
Qed.

Lemma mapM_frame {A B : Type} (f : A -> Py world B) (l : list A) :
  (forall x w, fst (f x w) = w) -> forall w, fst (mapM f l w) = w.
Proof.
  intros Hf. induction l as [| x rest IH]; intros w; [reflexivity |].
  cbn [mapM]. unfold bind.
  pose proof (Hf x w) as Hx. destruct (f x w) as [w1 [y |e]]; cbn in Hx; subst w1.
  - pose proof (IH w) as Hr. destruct (mapM f rest w) as [w2 [ys |e]]; cbn in Hr; subst w2;
      reflexivity.
  - reflexivity.
Qed.

(** *** The dispatcher is a read of [values] *)

Lemma call_run_reads (w : world) (self : nat) (o : StudentImplementation)
  (group : option Group) (r : pyval) :
  heap w !! self = Some o ->
  call_run self group r w = (w, run_one (values o) group r).
Proof.
  intros Hself. destruct r; cbn; try reflexivity.
  py_step. rewrite Hself. destruct (values o); reflexivity.
Qed.

Lemma mapM_call_run_reads (w : world) (self : nat) (o : StudentImplementation)
  (group : option Group) (l : list pyval) :
  heap w !! self = Some o ->
  mapM (call_run self group) l w = (w, run_all (values o) group l).
Proof.
  intros Hself. induction l as [| r rest IH]; [reflexivity |].
  cbn [mapM run_all]. unfold bind.
  rewrite (call_run_reads w self o group r Hself).
  destruct (run_one (values o) group r) as [y |e]; [| reflexivity].
  rewrite IH. destruct (run_all (values o) group rest); reflexivity.
Qed.

Lemma check_reads_values (w : world) (self : nat) (o : StudentImplementation)
  (ref : pyval) (group : option Group) :
  heap w !! self = Some o ->
  StudentImplementation_check self ref group w = (w, dispatch (values o) ref group).
Proof.
  intros Hself. destruct ref as [| z | s | r | l | l]; cbn; try reflexivity.
  - py_step. rewrite Hself. destruct (values o); reflexivity.
  - unfold bind. rewrite (mapM_call_run_reads w self o group l Hself).
    destruct (run_all (values o) group l); reflexivity.
Qed.

Lemma call_run_frame (self : nat) (group : option Group) (r : pyval) (w : world) :
  fst (call_run self group r w) = w.
Proof.
  destruct r; cbn; try reflexivity.
  py_step. destruct (heap w !! self) as [o |]; [| reflexivity].
  destruct (values o); reflexivity.
Qed.

Lemma check_frame_world (self : nat) (ref : pyval) (group : option Group) (w : world) :
  fst (StudentImplementation_check self ref group w) = w.
Proof.
  destruct ref as [| z | s | r | l | l]; cbn; try reflexivity.
  - py_step. destruct (heap w !! self) as [o |]; [| reflexivity].
    destruct (values o); reflexivity.
  - unfold bind.
    pose proof (mapM_frame (call_run self group) l (call_run_frame self group) w) as Hl.
    destruct (mapM (call_run self group) l w) as [w1 [rs |e]]; cbn in Hl; subst w1;
      reflexivity.
Qed.

Lemma run_all_refs (fp : footprint) (group : option Group) (rs : list RefImpl) :
  run_all (Some fp) group (map PyRef rs) = Ok (map (fun r => ref_run r fp group) rs).
Proof.
  induction rs as [| r rest IH]; [reflexivity |].
  cbn. cbn in IH. rewrite IH. reflexivity.
Qed.

(** *** Construction by footprint injection *)

Lemma from_footprint_run (fp : footprint) (n : Z) (w : world) :
  from_footprint fp n w =
    (with_heap (heap w ++ [ {| nb := Some None; nb_path := Some None;
                               values := Some fp; steps := Some n |} ]) w,
     Ok (length (heap w))).
Proof.
  unfold from_footprint, construct, __init__. py_step. cbn.
  rewrite !alter_snoc. reflexivity.
Qed.

(** C10: [from_footprint] stores the footprint and the step count it is
    given, unchecked, in a new object whose notebook and path are both
    [None]; so there are inputs, with an empty and with a non-empty
    footprint, for which the new artifact breaks the step-count invariant. *)
Theorem from_footprint_stores_verbatim (fp : footprint) (n : Z) (w : world) :
  (exists w' stu o,
      from_footprint fp n w = (w', Ok stu)
      /\ heap w' !! stu = Some o
      /\ values o = Some fp /\ steps o = Some n
      /\ nb o = Some None /\ nb_path o = Some None)
  /\ (forall v : Value,
       exists w' stu o,
         from_footprint [(v, 5)] 0 w = (w', Ok stu)
         /\ heap w' !! stu = Some o /\ ~ step_count_invariant o)
  /\ (exists w' stu o,
       from_footprint [] 1 w = (w', Ok stu)
       /\ heap w' !! stu = Some o /\ ~ step_count_invariant o).
Proof.
  split; [| split; [intros v |]].
  - eexists _, _, _. split; [apply from_footprint_run |].
    split; [apply lookup_snoc |]. cbn. repeat split; reflexivity.
  - eexists _, _, _. split; [apply from_footprint_run |].
    split; [apply lookup_snoc |]. unfold step_count_invariant. cbn. lia.
  - eexists _, _, _. split; [apply from_footprint_run |].
    split; [apply lookup_snoc |]. unfold step_count_invariant. cbn. lia.
Qed.

(** *** The checking dispatcher *)

(** C5: on an artifact that holds a footprint, [check] with one reference
    returns the bare result of running it once with the group; with a list
    of references it returns the list of their results in the same order,
    each run on the same footprint and group; with anything that is neither
    a reference nor a list it raises [UnsupportedInputKind]. *)
Theorem check_dispatches_on_shape (w : world) (self : nat) (o : StudentImplementation)
  (fp : footprint) (group : option Group) :
  heap w !! self = Some o ->
  values o = Some fp ->
  (forall r : RefImpl,
      StudentImplementation_check self (PyRef r) group w
      = (w, Ok (OneResult (ref_run r fp group))))
  /\ (forall rs : list RefImpl,
      StudentImplementation_check self (PyList (map PyRef rs)) group w
      = (w, Ok (ManyResults (map (fun r => ref_run r fp group) rs))))
  /\ (forall ref : pyval,
      is_ref ref = false -> is_list ref = false ->
      StudentImplementation_check self ref group w = (w, Raised UnsupportedInputKind)).
Proof.
  intros Hself Hvalues. repeat split.
  - intros r. rewrite (check_reads_values w self o _ group Hself).
    cbn. rewrite Hvalues. reflexivity.
  - intros rs. rewrite (check_reads_values w self o _ group Hself).
    cbn [dispatch]. rewrite Hvalues, run_all_refs. reflexivity.
  - intros ref Href Hlist. destruct ref; try discriminate; reflexivity.
Qed.

(** *** Reads leave the artifact alone *)

Lemma dumps_frame (self : nat) (w : world) : fst (dumps self w) = w.
Proof.
  unfold dumps. py_step.
  destruct (heap w !! self) as [o |]; [| reflexivity].
  destruct (dill_dumps o) as [bits |e]; [| reflexivity].
  destruct (Base64.decode_ascii (Base64.b64encode bits)); reflexivity.
Qed.

Lemma dump_frame (self : nat) (dest : string) (w : world) :
  heap (fst (dump self dest w)) = heap w.
Proof.
  unfold dump. py_step.
  destruct (os_resolve dest) as [f |e]; [| reflexivity]. cbn.
  destruct (heap w !! self) as [o |]; [| reflexivity].
  destruct (dill_dumps o) as [bits |e]; reflexivity.
Qed.

(** C9: checking an artifact against any [ref] and serializing it to the
    string form leave the whole store as it was, and writing it to a file
    changes no object: footprint, step count, notebook and path of every
    artifact stay what they were. *)
Theorem reads_do_not_mutate (self : nat) (ref : pyval) (group : option Group)
  (dest : string) (w : world) :
  fst (StudentImplementation_check self ref group w) = w
  /\ fst (dumps self w) = w
  /\ heap (fst (dump self dest w)) = heap w
  /\ heap (fst (dump self dest w)) !! self = heap w !! self.
Proof.
  repeat split.
  - apply check_frame_world.
  - apply dumps_frame.
  - apply dump_frame.
  - now rewrite dump_frame.
Qed.

(** *** Validation of [ref] in the context manager *)

Lemma mapM_load_element_frame (l : list pyval) (w : world) :
  fst (mapM load_element l w) = w.
Proof.
  apply mapM_frame. intros x w0. destruct x; cbn; try reflexivity.
  py_step. destruct (ref_load s); reflexivity.
Qed.

Ltac frame_step H :=
  let w1 := fresh "w" in
  match type of H with
  | fst ?m = _ => destruct m as [w1 [? | ?]]; cbn in H; subst w1
  end.

Lemma load_identifier_frame (ref : pyval) (w : world) : fst (load_identifier ref w) = w.
Proof.
  destruct ref; cbn; try reflexivity.
  py_step. destruct (ref_load s); reflexivity.
Qed.

Lemma check_list_frame (ref : pyval) (w : world) : fst (check_list ref w) = w.
Proof.
  destruct ref as [| z | s | r | l | l]; cbn; try reflexivity.
  destruct (Nat.eqb (length l) 0); [reflexivity |].
  destruct (negb (forallb is_ref l)); [| reflexivity].
  destruct (negb (forallb is_str l)); [reflexivity |].
  unfold bind. pose proof (mapM_load_element_frame l w) as Hl.
  frame_step Hl; reflexivity.
Qed.

Lemma check_elements_frame (ref : pyval) (w : world) : fst (check_elements ref w) = w.
Proof.
  unfold check_elements. py_step.
  destruct (py_iter ref) as [items |e]; [| reflexivity].
  destruct (negb (forallb is_ref items)); reflexivity.
Qed.

(** Validation reads and loads; it never writes to the store. *)
Lemma validate_frame (ref : pyval) (w : world) : fst (validate ref w) = w.
Proof.
  unfold validate, bind.
  pose proof (load_identifier_frame ref w) as H1. frame_step H1; [| reflexivity].
  pose proof (check_list_frame a w) as H2. frame_step H2; [| reflexivity].
  apply check_elements_frame.
Qed.

(** A single reference is never wrapped into a list: it reaches line 196
    as it is, and what happens there is up to how the object iterates. *)
Lemma validate_single_reference (r : RefImpl) (w : world) :
  validate (PyRef r) w =
    (w, match ref_iter r with
        | Ok items => if forallb is_ref items then Ok (PyRef r) else Raised TypeError
        | Raised e => Raised e
        end).
Proof.
  unfold validate, load_identifier, check_list, check_elements. py_step.
  cbn [py_iter]. destruct (ref_iter r) as [items |e]; [| reflexivity].
  destruct (forallb is_ref items); reflexivity.
Qed.

Lemma validate_empty_list (w : world) :
  validate (PyList []) w = (w, Raised EmptyReferenceSet).
Proof. reflexivity. Qed.

Lemma validate_identifier (s : string) (r : RefImpl) (w : world) :
  ref_load s = Ok r ->
  validate (PyStr s) w = (w, Ok (PyList [PyRef r])).
Proof.
  intros Hload. unfold validate, load_identifier. py_step. rewrite Hload. reflexivity.
Qed.

Lemma forallb_is_ref_map (rs : list RefImpl) : forallb is_ref (map PyRef rs) = true.
Proof. induction rs as [| r rest IH]; [reflexivity | exact IH]. Qed.

Lemma validate_reference_list (r : RefImpl) (rs : list RefImpl) (w : world) :
  validate (PyList (map PyRef (r :: rs))) w = (w, Ok (PyList (map PyRef (r :: rs)))).
Proof.
  pose proof (forallb_is_ref_map (r :: rs)) as Hall.
  unfold validate, load_identifier, check_list, check_elements. py_step.
  cbn [map length Nat.eqb py_iter] in *. rewrite Hall.
  cbn [negb py_iter]. rewrite Hall. reflexivity.
Qed.

Lemma validate_mixed_list (l : list pyval) (w : world) :
  l <> [] -> forallb is_ref l = false -> forallb is_str l = false ->
  validate (PyList l) w = (w, Raised UnsupportedInputKind).
Proof.
  intros Hne Href Hstr. unfold validate, load_identifier, check_list. py_step.
  destruct l as [| x rest]; [congruence |].
  cbn [length Nat.eqb]. rewrite Href, Hstr. reflexivity.
Qed.

(** A failed validation ends [check] before the engine is touched. *)
Lemma check_fails_fast (ref : pyval) (kwargs : Kwargs) (e : exn) (w : world) :
  tracing w = None ->
  snd (validate ref w) = Raised e ->
  check (AtStart ref kwargs) w = (w, Raised e).
Proof.
  intros Hidle Hbad. unfold check, _currently_tracing. py_step.
  rewrite Hidle. cbn. unfold check_from_line187. unfold bind at 1.
  pose proof (validate_frame ref w) as Hw.
  destruct (validate ref w) as [w1 o]. cbn in Hw, Hbad. subst w1 o. reflexivity.
Qed.

(** C4, as the code has it: [StudentImplementation.check] answers an empty
    list of references with an empty list of results and raises nothing;
    it is the [check] context manager that, entered with an empty list while
    no tracing is active, raises [EmptyReferenceSet], before it runs the
    block or touches the store. *)
Theorem empty_reference_list (w : world) (self : nat) (group : option Group)
  (kwargs : Kwargs) (body : stmt) :
  tracing w = None ->
  StudentImplementation_check self (PyList []) group w = (w, Ok (ManyResults []))
  /\ exec (WithCheck (PyList []) kwargs body) w = (w, Raised EmptyReferenceSet).
Proof.
  intros Hidle. split; [reflexivity |].
  cbn [exec]. unfold cm_enter. unfold bind at 1. unfold bind at 1.
  rewrite (check_fails_fast (PyList []) kwargs EmptyReferenceSet w Hidle); reflexivity.
Qed.

(** Whatever the collaborators are, validation does not turn a single
    reference into the list that holds it. *)
Lemma validate_never_wraps_reference (r : RefImpl) (w : world) :
  snd (validate (PyRef r) w) <> Ok (PyList [PyRef r]).
Proof.
  rewrite validate_single_reference. cbn [snd].
  destruct (ref_iter r) as [items |e]; [| discriminate].
  destruct (forallb is_ref items); discriminate.
Qed.

(** C6, at the input where the code departs from it: given a single
    Reference Implementation, which cannot be iterated, no branch of the
    validation wraps it into a list; line 196 iterates over the reference
    itself and the call ends in [TypeError] before the block runs, with the
    store untouched. *)
Theorem single_reference_is_rejected (r : RefImpl) (kwargs : Kwargs) (body : stmt)
  (w : world) :
  ref_iter r = Raised TypeError ->
  validate (PyRef r) w = (w, Raised UnsupportedInputKind)
  /\ exec (WithCheck (PyRef r) kwargs body) idle = (idle, Raised UnsupportedInputKind).
Proof.
  intros Hiter.
  assert (Hv : forall w0, validate (PyRef r) w0 = (w0, Raised UnsupportedInputKind))
    by (intros w0; rewrite validate_single_reference, Hiter; reflexivity).
  split; [apply Hv |].
  cbn [exec]. unfold cm_enter. unfold bind at 1. unfold bind at 1.
  rewrite (check_fails_fast (PyRef r) kwargs UnsupportedInputKind idle eq_refl).
  - reflexivity.
  - rewrite Hv. reflexivity.
Qed.

(** *** The step count computed at exit *)

Lemma fold_left_max_ge (l : list Z) (x : Z) :
  x <= fold_left Z.max l x /\ Forall (fun y => y <= fold_left Z.max l x) l.
Proof.
  revert x. induction l as [| y rest IH]; intros x; cbn.
  - split; [lia | constructor].
  - destruct (IH (Z.max x y)) as [Hx Hrest]. split; [lia |].
    constructor; [lia | exact Hrest].
Qed.

Lemma fold_left_max_in (l : list Z) (x : Z) :
  fold_left Z.max l x = x \/ In (fold_left Z.max l x) l.
Proof.
  revert x. induction l as [| y rest IH]; intros x; cbn; [now left |].
  destruct (IH (Z.max x y)) as [Heq | Hin]; [| now right; right].
  rewrite Heq. destruct (Z.max_spec x y) as [[_ ->] | [_ ->]]; [right; now left | now left].
Qed.

(** On a non-empty list [max] is the largest element. *)
Lemma py_max_is_maximum (l : list Z) (m : Z) :
  py_max l = Ok m -> In m l /\ Forall (fun y => y <= m) l.
Proof.
  destruct l as [| x rest]; [discriminate |].
  cbn. intros [= <-].
  destruct (fold_left_max_ge rest x) as [Hx Hrest].
  split; [| constructor; assumption].
  destruct (fold_left_max_in rest x) as [-> | Hin]; [now left | now right].
Qed.

(** After a block that ended normally and left a non-empty footprint, the
    exit path turns tracing off and builds the artifact with the largest
    timestamp as its step count. *)
Lemma exit_builds_artifact (w : world) (ref : pyval) (observed : nat)
  (fp : footprint) (m : Z) :
  collectors w !! observed = Some fp ->
  py_max (map snd fp) = Ok m ->
  exists w' out,
    check_from_line206 ref observed w = (w', out)
    /\ tracing w' = None
    /\ heap w' = heap w ++ [ {| nb := Some None; nb_path := Some None;
                               values := Some fp; steps := Some m |} ].
Proof.
  intros Hfp Hmax.
  unfold check_from_line206, tracing_off, read_collector.
  cbv beta iota delta [bind ret raise lift get_world modify record_call].
  cbn [collectors with_tracing with_calls]. rewrite Hfp, Hmax.
  rewrite from_footprint_run. cbn [heap with_tracing with_calls with_heap tracing].
  match goal with
  | |- context [StudentImplementation_check ?a ?r ?g ?w0] =>
      pose proof (check_frame_world a r g w0) as Hc;
      destruct (StudentImplementation_check a r g w0) as [w1 [res |e]];
      cbn in Hc; subst w1
  end.
  - destruct (iter_results res) as [rs |e]; eexists _, _; repeat split; reflexivity.
  - eexists _, _; repeat split; reflexivity.
Qed.

(** C1, at the input where the code departs from it: a checked block under
    which nothing is observed.  The exit path calls [max] on an empty
    sequence; the call ends in [ValueError], no artifact with step count 0 is
    built and nothing is reported. *)
Theorem empty_footprint_raises (r : RefImpl) (kwargs : Kwargs) :
  exec (WithCheck (PyList [PyRef r]) kwargs Pass) idle =
    ({| collectors := [[]]; tracing := None; heap := []; files := ∅; stdout := [];
        calls := [CreateCollector kwargs 0; TracingOn 0; TracingOff] |},
     Raised ValueError).
Proof. reflexivity. Qed.

(** *** Entering while tracing is active *)

(** Entered while some collector is tracing, [check] yields at line 185
    without touching the store. *)
Lemma nested_entry_yields (ref : pyval) (kwargs : Kwargs) (w : world) (h : nat) :
  tracing w = Some h ->
  cm_enter (AtStart ref kwargs) w = (w, Ok (AtLine185 ref kwargs)).
Proof.
  intros Hactive. unfold cm_enter, check, _currently_tracing. py_step.
  rewrite Hactive. reflexivity.
Qed.

(** When the nested block has ended normally, the generator is resumed
    after line 185 and runs lines 187 to 204: with a valid [ref] it creates
    a collector, installs it in place of whatever was tracing, and yields a
    second time, which [contextlib] answers with [RuntimeError]. *)
Lemma nested_exit_runs_on (ref ref' : pyval) (kwargs : Kwargs) (w : world) :
  validate ref w = (w, Ok ref') ->
  cm_exit (AtLine185 ref kwargs) (Ok tt) w =
    (MkWorld (collectors w ++ [[]]) (Some (length (collectors w))) (heap w) (files w)
       (stdout w)
       ((calls w ++ [CreateCollector kwargs (length (collectors w))])
          ++ [TracingOn (length (collectors w))]),
     Raised RuntimeError).
Proof.
  intros Hvalid. unfold cm_exit, check, check_from_line187.
  unfold bind at 1. unfold bind at 1. rewrite Hvalid.
  unfold create_collector, tracing_on. py_step. reflexivity.
Qed.

(** C2, at the input where the code departs from it: a check nested in a
    check.  The inner entry yields at line 185 and the block runs under the
    outer collector; at the inner exit the generator runs on from line 185,
    creates a second collector, turns tracing on a second time and yields
    again, which ends the [with] in [RuntimeError] and leaves the second
    collector installed. *)
Theorem nested_check_installs_second_collector (r1 r2 : RefImpl) (k1 k2 : Kwargs)
  (v : Value) (t : Z) :
  exec (WithCheck (PyList [PyRef r1]) k1
          (WithCheck (PyList [PyRef r2]) k2 (Observe v t))) idle =
    ({| collectors := [[(v, t)]; []]; tracing := Some 1%nat; heap := []; files := ∅;
        stdout := [];
        calls := [CreateCollector k1 0; TracingOn 0; CreateCollector k2 1; TracingOn 1] |},
     Raised RuntimeError).
Proof. reflexivity. Qed.

(** *** Leaving by an exception *)

(** An exception thrown into the generator comes straight back: the exit
    of the context manager changes nothing in the store. *)
Lemma exit_on_exception (gen : check_frame) (e : exn) (w : world) :
  cm_exit gen (Raised e) w = (w, Raised e).
Proof. reflexivity. Qed.

(** C3, at the input where the code departs from it: a checked block that
    raises.  The exception propagates and no report is printed, but
    [tracing_off] is never called: the collector of this check is still the
    installed trace function when control is back with the caller. *)
Theorem raising_block_leaves_tracing_on (r : RefImpl) (kwargs : Kwargs) (e : exn) :
  exec (WithCheck (PyList [PyRef r]) kwargs (RaiseStmt e)) idle =
    ({| collectors := [[]]; tracing := Some 0%nat; heap := []; files := ∅; stdout := [];
        calls := [CreateCollector kwargs 0; TracingOn 0] |},
     Raised e).
Proof. reflexivity. Qed.

(** *** The plagiarism orchestrator *)

Lemma mapM_read_object (w : world) (addrs : list nat) (objs : list StudentImplementation) :
  Forall2 (fun a p => heap w !! a = Some p) addrs objs ->
  mapM read_object addrs w = (w, Ok objs).
Proof.
  induction 1 as [| a p addrs objs Ha _ IH]; [reflexivity |].
  cbn [mapM]. unfold bind at 1. unfold read_object at 1. rewrite Ha.
  unfold bind at 1. rewrite IH. reflexivity.
Qed.

Lemma aligned_lookup (f : StudentImplementation -> Result) (w : world)
  (addrs : list nat) (objs : list StudentImplementation) :
  Forall2 (fun a p => heap w !! a = Some p) addrs objs ->
  forall i a p, addrs !! i = Some a -> heap w !! a = Some p ->
    map f objs !! i = Some (f p).
Proof.
  induction 1 as [| a0 p0 addrs objs Ha _ IH]; intros i a p Hi Hp.
  - destruct i; discriminate.
  - destruct i as [| i]; cbn in Hi |- *.
    + injection Hi as ->. rewrite Ha in Hp. injection Hp as ->. reflexivity.
    + exact (IH i a p Hi Hp).
Qed.

(** C8: [check_plagiarism] asks the synthesizer once, for the calling
    artifact alone and with the given options, takes the first reference it
    returns, and hands that reference, the peers and the same options to the
    comparator; the results it returns are as many as the peers, and result
    [i] is the comparison of peer [i] with that reference. *)
Theorem check_plagiarism_aligned (w : world) (self : nat) (o : StudentImplementation)
  (student_impls : list nat) (peers : list StudentImplementation)
  (kwargs : Kwargs) (r0 : RefImpl) (others : list RefImpl) :
  heap w !! self = Some o ->
  create_references [o] kwargs = Ok (r0 :: others) ->
  Forall2 (fun a p => heap w !! a = Some p) student_impls peers ->
  exists w' results,
    check_plagiarism self student_impls kwargs w = (w', Ok results)
    /\ calls w' = calls w ++ [CreateReferences 1 kwargs;
                              GetImplResults r0 (length student_impls) kwargs]
    /\ heap w' = heap w
    /\ results = map (fun p => peer_result r0 p kwargs) peers
    /\ length results = length student_impls
    /\ (forall i a p, student_impls !! i = Some a -> heap w !! a = Some p ->
          results !! i = Some (peer_result r0 p kwargs)).
Proof.
  intros Hself Hsynth Hpeers.
  exists (with_calls (calls w ++ [CreateReferences 1 kwargs;
                                  GetImplResults r0 (length student_impls) kwargs]) w),
         (map (fun p => peer_result r0 p kwargs) peers).
  split; [| split; [reflexivity | split; [reflexivity | split; [reflexivity | split]]]].
  - unfold check_plagiarism, read_object. unfold bind at 1. rewrite Hself.
    unfold record_call, modify. unfold bind at 1. unfold bind at 1. unfold lift at 1.
    rewrite Hsynth. unfold get_impl_results, record_call, modify.
    unfold bind at 1. unfold bind at 1.
    rewrite (mapM_read_object _ student_impls peers) by exact Hpeers.
    cbn. rewrite <- app_assoc. reflexivity.
  - rewrite length_map. symmetry. exact (Forall2_length _ _ _ Hpeers).
  - exact (aligned_lookup _ w student_impls peers Hpeers).
Qed.

(** *** Persisted forms *)

(** What [dump] leaves in the store when everything goes through. *)
Lemma dump_run (w : world) (self : nat) (o : StudentImplementation)
  (bits : list byte) (dest f : string) :
  heap w !! self = Some o ->
  dill_dumps o = Ok bits ->
  os_resolve dest = Ok f ->
  dump self dest w = (with_files (<[f := bits]> (files w)) w, Ok tt).
Proof.
  intros Hself Hdumps Hopen. unfold dump. py_step. rewrite Hopen.
  cbn [heap with_files files]. rewrite Hself, Hdumps.
  cbn [heap with_files files]. rewrite insert_insert_eq. reflexivity.
Qed.

(** An artifact that [dill] cannot pickle has no persisted form: [dumps]
    raises what pickling raised, and so does [dump]. *)
Lemma unpicklable_has_no_persisted_form (w : world) (self : nat)
  (o : StudentImplementation) (e : exn) (dest : string) :
  heap w !! self = Some o ->
  dill_dumps o = Raised e ->
  dumps self w = (w, Raised e)
  /\ (forall f, os_resolve dest = Ok f -> snd (dump self dest w) = Raised e).
Proof.
  intros Hself Hfail. split.
  - unfold dumps. py_step. rewrite Hself, Hfail. reflexivity.
  - intros f Hopen. unfold dump. py_step. rewrite Hopen.
    cbn [heap with_files]. rewrite Hself, Hfail. reflexivity.
Qed.


End ModelFacts.

(** * A concrete classroom

    A small instance in which the statements above are run: values and
    references are numbers, a result records which reference saw how many
    observations under which group. *)

Module Demo.

#[export] Instance entities : Entities := {|
  Value := Z;
  Notebook := unit;
  RefImpl := nat;
  Result := nat * nat * option nat;
  Messages := nat;
  Group := nat;
  Kwargs := unit
|}.

Definition the_footprint : footprint := [(1, 0); (2, 1); (5, 2)].

Definition the_student : StudentImplementation :=
  {| nb := Some None; nb_path := Some None; values := Some the_footprint; steps := Some 2 |}.

#[export] Instance collaborators : Collaborators := {|
  ref_run := fun r fp g => (r, length fp, g);
  ref_load := fun s => Ok (String.length s);
  ref_iter := fun _ => Raised TypeError;
  result_messages := fun x => fst (fst x);
  nbformat_read := fun _ _ => Ok tt;
  execute_notebook := fun _ _ _ _ => Ok (2, the_footprint);
  os_resolve := fun path =>
    if String.eqb path EmptyString then Raised FileNotFoundError else Ok path;
  dill_dumps := fun _ => Ok [x80; x04];
  dill_partial := fun _ => [];
  dill_loads := fun _ => place_object the_student;
  create_references := fun l _ => Ok (map (fun _ => 7%nat) l);
  peer_result := fun r p _ => (r, length (default [] (values p)), None)
|}.

Definition short_footprint : footprint := [(9, 4)].
Definition peer_one : StudentImplementation := set_values [] the_student.
Definition peer_two : StudentImplementation := set_values short_footprint the_student.

(** A store that holds the student above and two peers. *)
Definition classroom : world := with_heap [the_student; peer_one; peer_two] idle.

(** The scenario of the specification: footprint [(1,0), (2,1), (5,2)]
    has step count 2. *)
Example scenario_step_count : py_max (map snd the_footprint) = Ok 2.
Proof. reflexivity. Qed.

Example scenario_inline_check :
  stdout (fst (exec (WithCheck (PyStr "ref.pkl") tt
                       (Seq (Observe 1 0) (Seq (Observe 2 1) (Observe 5 2)))) idle))
  = [[7%nat]].
Proof. reflexivity. Qed.

Lemma check_dispatches_on_shape_witness :
  heap classroom !! 0%nat = Some the_student
  /\ values the_student = Some the_footprint
  /\ StudentImplementation_check 0 (PyList [PyRef 3%nat; PyRef 4%nat]) (Some 1%nat) classroom
     = (classroom, Ok (ManyResults [(3%nat, 3%nat, Some 1%nat); (4%nat, 3%nat, Some 1%nat)])).
Proof.
  split; [reflexivity | split; [reflexivity |]].
  destruct (check_dispatches_on_shape classroom 0 the_student the_footprint (Some 1%nat)
              eq_refl eq_refl) as (_ & Hlist & _).
  exact (Hlist [3%nat; 4%nat]).
Defined.

(** C4 as it is stated fails: checking the student against an empty list
    of references returns and raises nothing. *)
Lemma empty_list_check_returns :
  StudentImplementation_check 0 (PyList []) None classroom = (classroom, Ok (ManyResults []))
  /\ snd (StudentImplementation_check 0 (PyList []) None classroom)
     <> Raised EmptyReferenceSet.
Proof. split; [reflexivity | discriminate]. Qed.

Lemma empty_reference_list_witness :
  tracing classroom = None
  /\ exec (WithCheck (PyList []) tt (Observe 1 0)) classroom
     = (classroom, Raised EmptyReferenceSet).
Proof.
  split; [reflexivity |].
  exact (proj2 (empty_reference_list classroom 0 None tt (Observe 1 0) eq_refl)).
Defined.

Lemma single_reference_is_rejected_witness :
  ref_iter 3%nat = Raised TypeError
  /\ exec (WithCheck (PyRef 3%nat) tt (Observe 1 0)) idle = (idle, Raised UnsupportedInputKind).
Proof.
  split; [reflexivity |].
  exact (proj2 (single_reference_is_rejected 3%nat tt (Observe 1 0) idle eq_refl)).
Defined.

(** A tuple of references is not a supported shape either, but it passes
    the validation: the block runs under a collector and the failure comes
    from the dispatcher at exit. *)
Example tuple_of_references_fails_late :
  exec (WithCheck (PyTuple [PyRef 3%nat]) tt (Observe 1 0)) idle =
    ({| collectors := [[(1, 0)]]; tracing := None;
        heap := [ {| nb := Some None; nb_path := Some None;
                     values := Some [(1, 0)]; steps := Some 0 |} ];
        files := ∅; stdout := [];
        calls := [CreateCollector tt 0; TracingOn 0; TracingOff] |},
     Raised UnsupportedInputKind).
Proof. reflexivity. Qed.

Lemma classroom_peers :
  Forall2 (fun a p => heap classroom !! a = Some p) [1%nat; 2%nat]
    [peer_one; peer_two].
Proof. repeat constructor. Defined.

Lemma classroom_reference : create_references [the_student] tt = Ok [7%nat].
Proof. reflexivity. Defined.

Lemma check_plagiarism_aligned_witness :
  heap classroom !! 0%nat = Some the_student
  /\ create_references [the_student] tt = Ok [7%nat]
  /\ exists w' results,
       check_plagiarism 0 [1%nat; 2%nat] tt classroom = (w', Ok results)
       /\ results !! 1%nat = Some (7%nat, 1%nat, None).
Proof.
  split; [reflexivity | split; [reflexivity |]].
  destruct (check_plagiarism_aligned classroom 0 the_student [1%nat; 2%nat]
              [peer_one; peer_two]
              tt 7%nat [] eq_refl classroom_reference classroom_peers)
    as (w' & results & Hrun & _ & _ & _ & _ & Hith).
  exists w', results. split; [exact Hrun |].
  exact (Hith 1%nat 2%nat peer_two eq_refl eq_refl).
Defined.

End Demo.

(** * Further facts about the class and the context manager *)

Section Blocks.
Context {Ent : Entities} {Col : Collaborators}.

(** A block that does nothing but produce the observations of [fp], in
    order. *)
Fixpoint observations (fp : footprint) : stmt :=
  match fp with
  | [] => Pass
  | (v, t) :: rest => Seq (Observe v t) (observations rest)
  end.


(** [[ReferenceImplementation.load(s) for s in ss]] on its own. *)
Fixpoint load_all (ss : list string) : outcome (list RefImpl) :=
  match ss with
  | [] => Ok []
  | s :: rest =>
      match ref_load s with
      | Raised e => Raised e
      | Ok r =>
          match load_all rest with
          | Raised e => Raised e
          | Ok rs => Ok (r :: rs)
          end
      end
  end.

End Blocks.

Section MoreFacts.
Context {Ent : Entities} {Col : Collaborators}.

Ltac py_run :=
  cbv beta iota delta [bind ret raise lift get_world modify attempt record_call
    read_object getattr setattr new_object place_object].

(** *** The constructor *)

(** Given something that is neither [None], a path nor a notebook, the
    constructor raises [TypeError]; it has then read no notebook and run
    nothing, and the object it was filling in has no attribute at all. *)
Lemma construct_unsupported_kind (addl_filenames : list string) (output : option string)
  (w : world) :
  construct SrcOther addl_filenames output w
  = (with_heap (heap w ++ [blank_object]) w, Raised UnsupportedInputKind).
Proof. reflexivity. Qed.

(** X2: when the notebook file cannot be read, the constructor raises what
    [nbformat.read] raised and the notebook is never executed. *)
Theorem construct_unreadable_path (path : string) (addl_filenames : list string)
  (output : option string) (e : exn) (w : world) :
  nbformat_read path NBFORMAT_VERSION = Raised e ->
  construct (SrcPath path) addl_filenames output w
  = (with_heap (heap w ++ [blank_object]) w, Raised e).
Proof.
  intros Hread. unfold construct, __init__. py_run. rewrite Hread. reflexivity.
Qed.

(** X3: built from a path, the artifact keeps the notebook that was read
    and the path, and holds the step count and the footprint exactly as
    [execute_notebook] returned them for that notebook, that path and the
    given extra file names and output; the notebook is executed once. *)
Theorem construct_from_path (path : string) (addl_filenames : list string)
  (output : option string) (n : Notebook) (k : Z) (fp : footprint) (w : world) :
  nbformat_read path NBFORMAT_VERSION = Ok n ->
  execute_notebook (Some n) (Some path) addl_filenames output = Ok (k, fp) ->
  construct (SrcPath path) addl_filenames output w
  = (with_calls (calls w ++ [ExecuteNotebook])
       (with_heap (heap w ++ [ {| nb := Some (Some n); nb_path := Some (Some path);
                                  values := Some fp; steps := Some k |} ]) w),
     Ok (length (heap w))).
Proof.
  intros Hread Hexec. unfold construct, __init__, _execute. py_run. rewrite Hread.
  cbn [heap with_heap]. rewrite !alter_snoc, lookup_snoc.
  cbn. rewrite lookup_snoc. cbn. rewrite Hexec.
  cbn. rewrite !alter_snoc. reflexivity.
Qed.

(** X4: built from a notebook object, the artifact records the empty
    string as its path, and it is under the empty path that the notebook is
    executed. *)
Theorem construct_from_notebook (n : Notebook) (addl_filenames : list string)
  (output : option string) (k : Z) (fp : footprint) (w : world) :
  execute_notebook (Some n) (Some EmptyString) addl_filenames output = Ok (k, fp) ->
  construct (SrcNotebook n) addl_filenames output w
  = (with_calls (calls w ++ [ExecuteNotebook])
       (with_heap (heap w ++ [ {| nb := Some (Some n); nb_path := Some (Some EmptyString);
                                  values := Some fp; steps := Some k |} ]) w),
     Ok (length (heap w))).
Proof.
  intros Hexec. unfold construct, __init__, _execute. py_run.
  cbn [heap with_heap]. rewrite !alter_snoc, lookup_snoc.
  cbn. rewrite lookup_snoc. cbn. rewrite Hexec.
  cbn. rewrite !alter_snoc. reflexivity.
Qed.

(** X1: the constructor never hands back a half-built artifact.  It
    adds one object to the store and touches no other; when it returns, the
    object is at the fresh address and, unless it was built from [None],
    holds both a footprint and a step count; when it raises, for whatever
    reason (unsupported input, unreadable notebook, failed execution), the
    object holds neither. *)
Theorem construct_complete_or_raises (src : nb_source) (addl_filenames : list string)
  (output : option string) (w : world) :
  exists o,
    heap (fst (construct src addl_filenames output w)) = heap w ++ [o]
    /\ match snd (construct src addl_filenames output w) with
       | Ok a =>
           a = length (heap w)
           /\ (src = SrcNone \/ (is_Some (values o) /\ is_Some (steps o)))
       | Raised _ => values o = None /\ steps o = None
       end.
Proof.
  assert (Hexec : forall (o0 : StudentImplementation) (n : Notebook) (p : string),
    nb o0 = Some (Some n) -> nb_path o0 = Some (Some p) ->
    values o0 = None -> steps o0 = None ->
    exists o,
      heap (fst ((_execute (length (heap w)) addl_filenames output ;;;
                  ret (length (heap w))) (with_heap (heap w ++ [o0]) w))) = heap w ++ [o]
      /\ match snd ((_execute (length (heap w)) addl_filenames output ;;;
                     ret (length (heap w))) (with_heap (heap w ++ [o0]) w)) with
         | Ok a =>
             a = length (heap w)
             /\ (src = SrcNone \/ (is_Some (values o) /\ is_Some (steps o)))
         | Raised _ => values o = None /\ steps o = None
         end).
  { intros o0 n p Hnb Hpath Hv Hs. unfold _execute. py_run.
    cbn [heap with_heap]. rewrite lookup_snoc, Hnb.
    cbn. rewrite lookup_snoc, Hpath. cbn.
    destruct (execute_notebook (Some n) (Some p) addl_filenames output) as [[k fp] |e].
    - cbn. rewrite !alter_snoc.
      eexists. split; [reflexivity |]. split; [reflexivity |].
      right. split; eexists; reflexivity.
    - exists o0. cbn. auto. }
  destruct src as [| path | n |].
  - eexists. unfold construct, __init__. py_run. cbn. rewrite !alter_snoc.
    split; [reflexivity |]. split; [reflexivity | left; reflexivity].
  - unfold construct, __init__. unfold bind at 1. unfold new_object.
    unfold bind at 1. unfold bind at 1. unfold lift at 1.
    destruct (nbformat_read path NBFORMAT_VERSION) as [n |e].
    + py_run. cbn [heap with_heap]. rewrite !alter_snoc.
      apply (Hexec (set_nb_path (Some path) (set_nb (Some n) blank_object)) n path);
        reflexivity.
    + exists blank_object. cbn. auto.
  - unfold construct, __init__. py_run. cbn [heap with_heap]. rewrite !alter_snoc.
    apply (Hexec (set_nb_path (Some EmptyString) (set_nb (Some n) blank_object))
             n EmptyString); reflexivity.
  - exists blank_object. cbn. auto.
Qed.

(** *** The dispatcher on lists that are not lists of references *)




(** X6: an artifact whose footprint was never assigned, as [cls(None)]
    leaves it, answers a reference and every non-empty list of references
    with [AttributeError]; an empty list it still answers with an empty
    list of results. *)
Theorem check_without_footprint (w : world) (self : nat) (o : StudentImplementation)
  (group : option Group) :
  heap w !! self = Some o ->
  values o = None ->
  (forall r : RefImpl,
      StudentImplementation_check self (PyRef r) group w = (w, Raised AttributeError))
  /\ (forall (r : RefImpl) (rs : list RefImpl),
      StudentImplementation_check self (PyList (map PyRef (r :: rs))) group w
      = (w, Raised AttributeError))
  /\ StudentImplementation_check self (PyList []) group w = (w, Ok (ManyResults [])).
Proof.
  intros Hself Hnone. repeat split.
  - intros r. rewrite (check_reads_values w self o _ group Hself).
    cbn. rewrite Hnone. reflexivity.
  - intros r rs. rewrite (check_reads_values w self o _ group Hself).
    cbn. rewrite Hnone. reflexivity.
Qed.

(** X7: the step count given to [from_footprint] plays no part in
    checking: the artifact answers a reference with the result of running
    it on the injected footprint, whatever step count came with it. *)
Theorem from_footprint_then_check (fp : footprint) (n : Z) (r : RefImpl)
  (group : option Group) (w : world) :
  snd ((stu <- from_footprint fp n ;; StudentImplementation_check stu (PyRef r) group) w)
  = Ok (OneResult (ref_run r fp group)).
Proof.
  unfold bind. rewrite from_footprint_run.
  set (o := {| nb := Some None; nb_path := Some None; values := Some fp; steps := Some n |}).
  rewrite (check_reads_values (with_heap (heap w ++ [o]) w) (length (heap w)) o
             (PyRef r) group (lookup_snoc (heap w) o)).
  reflexivity.
Qed.

(** X18: the dispatcher reads nothing of an artifact but its footprint:
    two artifacts that hold equal footprints, in whatever stores and with
    whatever step counts, notebooks and paths, answer every [ref] and group
    alike. *)
Theorem check_reads_only_the_footprint (w1 w2 : world) (a1 a2 : nat)
  (o1 o2 : StudentImplementation) (ref : pyval) (group : option Group) :
  heap w1 !! a1 = Some o1 ->
  heap w2 !! a2 = Some o2 ->
  values o1 = values o2 ->
  snd (StudentImplementation_check a1 ref group w1)
  = snd (StudentImplementation_check a2 ref group w2).
Proof.
  intros H1 H2 Hsame.
  rewrite (check_reads_values w1 a1 o1 ref group H1).
  rewrite (check_reads_values w2 a2 o2 ref group H2).
  cbn [snd]. rewrite Hsame. reflexivity.
Qed.

(** *** What validation lets through *)

Lemma mapM_length {A B : Type} (f : A -> Py world B) (l : list A) :
  forall w w' l', mapM f l w = (w', Ok l') -> length l' = length l.
Proof.
  induction l as [| x rest IH]; intros w w' l'; cbn [mapM].
  - intros [= _ <-]. reflexivity.
  - unfold bind at 1. destruct (f x w) as [w1 [y |e]]; [| discriminate].
    unfold bind at 1. destruct (mapM f rest w1) as [w2 [ys |e]] eqn:Hrest; [| discriminate].
    intros [= _ <-]. cbn. f_equal. exact (IH w1 w2 ys Hrest).
Qed.

Lemma check_list_gives_list (l : list pyval) (w w' : world) (v : pyval) :
  check_list (PyList l) w = (w', Ok v) ->
  exists l', v = PyList l' /\ l' <> [].
Proof.
  cbn [check_list]. destruct l as [| x rest]; [discriminate |].
  cbn [length Nat.eqb].
  destruct (negb (forallb is_ref (x :: rest))).
  - destruct (negb (forallb is_str (x :: rest))); [discriminate |].
    unfold bind. destruct (mapM load_element (x :: rest) w) as [w1 [l' |e]] eqn:Hload;
      [| discriminate].
    intros [= _ <-]. exists l'. split; [reflexivity |].
    apply mapM_length in Hload. destruct l'; [discriminate | discriminate].
  - intros [= _ <-]. exists (x :: rest). split; [reflexivity | discriminate].
Qed.

Lemma check_elements_gives_references (l : list pyval) (w w' : world) (v : pyval) :
  check_elements (PyList l) w = (w', Ok v) ->
  v = PyList l /\ forallb is_ref l = true.
Proof.
  unfold check_elements. py_run. cbn [py_iter].
  destruct (forallb is_ref l); cbn [negb]; [| discriminate].
  intros [= _ <-]. split; reflexivity.
Qed.

(** X8: whenever validation accepts a string or a list, what it hands on
    is a list, not empty, of Reference Implementations only. *)
Theorem validate_gives_reference_list (ref v : pyval) (w : world) :
  is_str ref || is_list ref = true ->
  snd (validate ref w) = Ok v ->
  exists l, v = PyList l /\ l <> [] /\ forallb is_ref l = true.
Proof.
  intros Hshape. unfold validate. unfold bind at 1.
  assert (Hrest : forall l w0,
    snd ((ref' <- check_list (PyList l) ;; check_elements ref') w0) = Ok v ->
    exists l', v = PyList l' /\ l' <> [] /\ forallb is_ref l' = true).
  { intros l w0. unfold bind.
    destruct (check_list (PyList l) w0) as [w1 [v1 |e]] eqn:Hlist; [| discriminate].
    destruct (check_list_gives_list l w0 w1 v1 Hlist) as (l' & -> & Hne).
    destruct (check_elements (PyList l') w1) as [w2 [v2 |e]] eqn:Helems; [| discriminate].
    cbn [snd]. intros [= <-].
    destruct (check_elements_gives_references l' w1 w2 v2 Helems) as [-> Hall].
    exists l'. auto. }
  destruct ref as [| z | s | r | l | l]; try discriminate.
  - cbn [load_identifier]. py_run. destruct (ref_load s) as [x |e]; [| discriminate].
    apply (Hrest [PyRef x] w).
  - cbn [load_identifier]. apply (Hrest l w).
Qed.

Lemma forallb_is_ref_strings (s : string) (ss : list string) :
  forallb is_ref (map PyStr (s :: ss)) = false.
Proof. reflexivity. Qed.

Lemma forallb_is_str_strings (ss : list string) : forallb is_str (map PyStr ss) = true.
Proof. induction ss as [| s rest IH]; [reflexivity | exact IH]. Qed.

Lemma mapM_load_element_strings (ss : list string) (w : world) :
  mapM load_element (map PyStr ss) w =
    (w, match load_all ss with
        | Ok rs => Ok (map PyRef rs)
        | Raised e => Raised e
        end).
Proof.
  induction ss as [| s rest IH]; [reflexivity |].
  cbn [map mapM load_all load_element]. py_run.
  destruct (ref_load s) as [r |e]; [| reflexivity].
  rewrite IH. destruct (load_all rest) as [rs |e]; reflexivity.
Qed.

(** X9: a non-empty list of identifying strings is loaded element by
    element, in order, into the list of the loaded references; the first
    [load] that raises ends the validation with its exception.  The store is
    not touched either way. *)
Theorem validate_identifier_list (s : string) (ss : list string) (w : world) :
  validate (PyList (map PyStr (s :: ss))) w =
    (w, match load_all (s :: ss) with
        | Ok rs => Ok (PyList (map PyRef rs))
        | Raised e => Raised e
        end).
Proof.
  unfold validate. unfold bind at 1. cbn [load_identifier ret].
  unfold bind at 1. unfold check_list.
  replace (Nat.eqb (length (map PyStr (s :: ss))) 0) with false by reflexivity.
  rewrite forallb_is_ref_strings, forallb_is_str_strings. cbn [negb].
  unfold bind at 1. rewrite mapM_load_element_strings.
  destruct (load_all (s :: ss)) as [rs |e]; [| reflexivity].
  cbn [ret]. unfold check_elements. py_run. cbn [py_iter].
  rewrite forallb_is_ref_map. reflexivity.
Qed.

(** *** A check that goes through *)

(** Entered while nothing is tracing, with a [ref] that validates, [check]
    creates one collector, installs it and yields at line 204. *)
Lemma fresh_entry (ref ref' : pyval) (kwargs : Kwargs) (w : world) :
  tracing w = None ->
  validate ref w = (w, Ok ref') ->
  cm_enter (AtStart ref kwargs) w =
    (MkWorld (collectors w ++ [[]]) (Some (length (collectors w))) (heap w) (files w)
       (stdout w)
       ((calls w ++ [CreateCollector kwargs (length (collectors w))])
          ++ [TracingOn (length (collectors w))]),
     Ok (AtLine204 ref' (length (collectors w)))).
Proof.
  intros Hidle Hvalid. unfold cm_enter, check, _currently_tracing. py_run.
  rewrite Hidle.
  replace (bool_decide (is_Some (@None nat))) with false by reflexivity.
  unfold check_from_line187. py_run. rewrite Hvalid.
  unfold create_collector, tracing_on. py_run. reflexivity.
Qed.

(** Under an installed collector, the observations of a block are
    appended to that collector's list, in order. *)
Lemma exec_observations (fp : footprint) :
  forall (w : world) (cs : list footprint) (fp0 : footprint),
    tracing w = Some (length cs) ->
    collectors w = cs ++ [fp0] ->
    exec (observations fp) w = (with_collectors (cs ++ [fp0 ++ fp]) w, Ok tt).
Proof.
  induction fp as [| [v t] rest IH]; intros w cs fp0 Htr Hcs.
  - cbn. rewrite app_nil_r. destruct w; cbn in *; subst; reflexivity.
  - cbn [observations exec]. unfold bind at 1. unfold observe, modify.
    rewrite Htr, Hcs, alter_snoc.
    pose proof (IH (with_collectors (cs ++ [fp0 ++ [(v, t)]]) w) cs (fp0 ++ [(v, t)])
                  Htr eq_refl) as Hrest.
    etransitivity; [exact Hrest |].
    rewrite <- app_assoc. reflexivity.
Qed.

Lemma run_all_messages (fp : footprint) (rs : list RefImpl) :
  dispatch (Some fp) (PyList (map PyRef rs)) None
  = Ok (ManyResults (map (fun r => ref_run r fp None) rs)).
Proof. cbn [dispatch]. rewrite run_all_refs. reflexivity. Qed.

(** X10: a check entered while nothing is tracing, with a non-empty list
    of references, around a block that produces the observations [fp] (not
    none): the block runs under one fresh collector, tracing is off again
    afterwards, the artifact built holds [fp] with its largest timestamp as
    step count, and one line is printed, with the messages of each
    reference's result in the order of the list, every reference having been
    run on [fp] with no group. *)
Theorem check_reports_in_order (r : RefImpl) (rs : list RefImpl) (kwargs : Kwargs)
  (fp : footprint) (m : Z) (w : world) :
  tracing w = None ->
  py_max (map snd fp) = Ok m ->
  exec (WithCheck (PyList (map PyRef (r :: rs))) kwargs (observations fp)) w =
    (MkWorld (collectors w ++ [fp]) None
       (heap w ++ [ {| nb := Some None; nb_path := Some None;
                       values := Some fp; steps := Some m |} ])
       (files w)
       (stdout w ++ [map (fun x => result_messages (ref_run x fp None)) (r :: rs)])
       (calls w ++ [CreateCollector kwargs (length (collectors w));
                    TracingOn (length (collectors w)); TracingOff]),
     Ok tt).
Proof.
  intros Hidle Hmax. cbn [exec]. unfold bind at 1.
  rewrite (fresh_entry _ _ kwargs w Hidle (validate_reference_list r rs w)).
  unfold bind at 1. unfold attempt.
  match goal with
  | |- context [exec (observations fp) ?w1] =>
      rewrite (exec_observations fp w1 (collectors w) [] eq_refl eq_refl)
  end.
  cbn [app]. unfold cm_exit, check, check_from_line206, tracing_off, read_collector.
  py_run. cbn [collectors with_collectors with_tracing with_calls].
  rewrite lookup_snoc, Hmax. rewrite from_footprint_run.
  cbn [heap with_collectors with_tracing with_calls with_heap].
  set (o := {| nb := Some None; nb_path := Some None; values := Some fp; steps := Some m |}).
  match goal with
  | |- context [StudentImplementation_check ?a ?v ?g ?w2] =>
      rewrite (check_reads_values w2 a o v g (lookup_snoc (heap w) o))
  end.
  cbn [values o]. rewrite (run_all_messages fp (r :: rs)).
  cbn [iter_results]. unfold print, modify. rewrite map_map.
  cbn. rewrite <- !app_assoc. reflexivity.
Qed.

(** *** A check entered while tracing is active *)

(** X11: a check entered while some collector is tracing, around a block
    that raises, is transparent: the exception and the store are those of
    the block alone, and [ref] is not even validated. *)
Theorem nested_check_transparent_when_block_raises (ref : pyval) (kwargs : Kwargs)
  (body : stmt) (w w' : world) (h : nat) (e : exn) :
  tracing w = Some h ->
  exec body w = (w', Raised e) ->
  exec (WithCheck ref kwargs body) w = (w', Raised e).
Proof.
  intros Hactive Hbody. cbn [exec]. unfold bind at 1.
  rewrite (nested_entry_yields ref kwargs w h Hactive).
  unfold bind at 1. unfold attempt. rewrite Hbody. reflexivity.
Qed.

(** Entered while tracing is active, [check] looks at [ref] only once
    the block has ended: an invalid [ref] lets the whole block run and is
    reported afterwards, with the store as the block left it. *)
Lemma nested_check_validates_after_block (ref : pyval) (kwargs : Kwargs)
  (body : stmt) (w w' : world) (h : nat) (e : exn) :
  tracing w = Some h ->
  exec body w = (w', Ok tt) ->
  snd (validate ref w') = Raised e ->
  exec (WithCheck ref kwargs body) w = (w', Raised e).
Proof.
  intros Hactive Hbody Hbad. cbn [exec]. unfold bind at 1.
  rewrite (nested_entry_yields ref kwargs w h Hactive).
  unfold bind at 1. unfold attempt. rewrite Hbody.
  unfold cm_exit, check, check_from_line187. unfold bind at 1. unfold bind at 1.
  pose proof (validate_frame ref w') as Hw.
  destruct (validate ref w') as [w1 out]. cbn in Hw, Hbad. subst w1 out. reflexivity.
Qed.

(** *** The exit path *)

(** X12: when the block has ended normally, the exit path leaves tracing
    off whatever comes after [tracing_off]: an empty footprint, a [ref] the
    dispatcher rejects, or a report. *)
Theorem normal_exit_turns_tracing_off (ref : pyval) (observed : nat) (w : world) :
  tracing (fst (cm_exit (AtLine204 ref observed) (Ok tt) w)) = None.
Proof.
  unfold cm_exit, check, check_from_line206, tracing_off, read_collector.
  py_run. cbn [collectors with_tracing with_calls].
  destruct (collectors w !! observed) as [fp |]; [| reflexivity].
  destruct (py_max (map snd fp)) as [m |e]; [| reflexivity].
  rewrite from_footprint_run.
  match goal with
  | |- context [StudentImplementation_check ?a ?v ?g ?w2] =>
      pose proof (check_frame_world a v g w2) as Hc;
      destruct (StudentImplementation_check a v g w2) as [w3 [res |e]];
      cbn [fst] in Hc; subst w3
  end; [| reflexivity].
  destruct (iter_results res) as [results |e]; reflexivity.
Qed.

(** X13: for a footprint that is not empty, the artifact built at exit
    holds that footprint, and its step count is one of the footprint's
    timestamps that none of them exceeds. *)
Theorem exit_step_count_is_largest_timestamp (ref : pyval) (observed : nat)
  (fp : footprint) (w : world) :
  collectors w !! observed = Some fp ->
  fp <> [] ->
  exists w' out o m,
    check_from_line206 ref observed w = (w', out)
    /\ heap w' !! length (heap w) = Some o
    /\ values o = Some fp /\ steps o = Some m
    /\ In m (map snd fp) /\ Forall (fun t => t <= m) (map snd fp).
Proof.
  intros Hfp Hne.
  destruct (py_max (map snd fp)) as [m |e] eqn:Hmax;
    [| destruct fp; [congruence | discriminate]].
  destruct (exit_builds_artifact w ref observed fp m Hfp Hmax) as (w' & out & Hrun & _ & Hheap).
  destruct (py_max_is_maximum _ m Hmax) as [Hin Hall].
  exists w', out, {| nb := Some None; nb_path := Some None;
                     values := Some fp; steps := Some m |}, m.
  split; [exact Hrun |]. split; [rewrite Hheap; apply lookup_snoc |].
  repeat split; assumption.
Qed.

(** *** Files written by [dump] *)

(** X16: [dump] writes the pickle of the artifact into the file its
    destination names, replacing what was there, and touches no other file
    and no object.  After two dumps to destinations that can be opened, the
    file of the second holds the second pickle, the file of the first still
    holds the first pickle unless both destinations name one file, and every
    other file is as before. *)
Theorem dump_writes_one_file (w : world) (a b : nat) (oa ob : StudentImplementation)
  (bits_a bits_b : list byte) (dest_a dest_b file_a file_b : string) :
  heap w !! a = Some oa ->
  heap w !! b = Some ob ->
  dill_dumps oa = Ok bits_a ->
  dill_dumps ob = Ok bits_b ->
  os_resolve dest_a = Ok file_a ->
  os_resolve dest_b = Ok file_b ->
  exists w2,
    (dump a dest_a ;;; dump b dest_b) w = (w2, Ok tt)
    /\ files w2 !! file_b = Some bits_b
    /\ (file_a <> file_b -> files w2 !! file_a = Some bits_a)
    /\ (forall other, other <> file_a -> other <> file_b ->
          files w2 !! other = files w !! other)
    /\ heap w2 = heap w.
Proof.
  intros Ha Hb Hpa Hpb Hfa Hfb.
  exists (with_files (<[file_b := bits_b]> (<[file_a := bits_a]> (files w))) w).
  split; [| split; [| split; [| split]]].
  - unfold bind.
    rewrite (dump_run w a oa bits_a dest_a file_a Ha Hpa Hfa).
    rewrite (dump_run (with_files (<[file_a := bits_a]> (files w)) w) b ob bits_b
               dest_b file_b Hb Hpb Hfb). reflexivity.
  - cbn [files with_files]. apply lookup_insert_eq.
  - intros Hne. cbn [files with_files].
    rewrite lookup_insert_ne by congruence. apply lookup_insert_eq.
  - intros other Hna Hnb. cbn [files with_files].
    rewrite !lookup_insert_ne by congruence. reflexivity.
  - reflexivity.
Qed.

(** A destination that cannot be opened: [dump] raises what [open] raised
    and writes nothing. *)
Lemma dump_unopenable (self : nat) (dest : string) (e : exn) (w : world) :
  os_resolve dest = Raised e -> dump self dest w = (w, Raised e).
Proof. intros Hopen. unfold dump. py_run. rewrite Hopen. reflexivity. Qed.

(** *** The plagiarism orchestrator without a reference *)

(** X17: when the synthesizer returns no reference at all,
    [check_plagiarism] raises [IndexError] on [refs[0]]; the comparator is
    never called and no artifact is changed. *)
Theorem check_plagiarism_without_reference (w : world) (self : nat)
  (o : StudentImplementation) (student_impls : list nat) (kwargs : Kwargs) :
  heap w !! self = Some o ->
  create_references [o] kwargs = Ok [] ->
  check_plagiarism self student_impls kwargs w
  = (with_calls (calls w ++ [CreateReferences 1 kwargs]) w, Raised IndexError).
Proof.
  intros Hself Hnone. unfold check_plagiarism. py_run.
  rewrite Hself. cbn [heap with_calls]. rewrite Hnone. reflexivity.
Qed.

End MoreFacts.

(** * The further facts in the classroom *)

Module MoreDemo.
Import Demo.

(** Collaborators for a bad day: no notebook can be read or run, no
    reference is synthesized. *)
Definition offline : Collaborators := {|
  ref_run := fun r fp g => (r, length fp, g);
  ref_load := fun _ => Raised FileNotFoundError;
  ref_iter := fun _ => Raised TypeError;
  result_messages := fun x => fst (fst x);
  nbformat_read := fun _ _ => Raised FileNotFoundError;
  execute_notebook := fun _ _ _ _ => Raised RuntimeError;
  os_resolve := fun _ => Raised FileNotFoundError;
  dill_dumps := fun _ => Raised UnpicklingError;
  dill_partial := fun _ => [];
  dill_loads := fun _ => raise UnpicklingError;
  create_references := fun _ _ => Ok [];
  peer_result := fun r p _ => (r, 0%nat, None)
|}.

(** References of the classroom, by number. *)
Definition reference (n : nat) : RefImpl := n.

(** No keyword arguments. *)
Definition no_kwargs : Kwargs := tt.

(** The one notebook of the classroom. *)
Definition homework : Notebook := tt.

(** The store after [StudentImplementation(None)]. *)
Definition hollow : StudentImplementation := set_nb_path None (set_nb None blank_object).
Definition lone : world := with_heap [hollow] idle.

(** A store in which a collector is already tracing. *)
Definition busy : world := with_tracing (Some 0%nat) (with_collectors [[]] idle).

(** A store whose one collector holds the footprint of the scenario. *)
Definition observed_world : world := with_collectors [the_footprint] idle.

Lemma construct_unreadable_path_witness :
  nbformat_read (Collaborators := offline) "hw.ipynb" NBFORMAT_VERSION = Raised FileNotFoundError
  /\ construct (Col := offline) (SrcPath "hw.ipynb") [] None idle
     = (with_heap [blank_object] idle, Raised FileNotFoundError).
Proof.
  split; [reflexivity |].
  apply (construct_unreadable_path (Col := offline)). reflexivity.
Defined.

Lemma construct_from_path_witness :
  nbformat_read "hw.ipynb" NBFORMAT_VERSION = Ok homework
  /\ execute_notebook (Some homework) (Some "hw.ipynb") [] None = Ok (2, the_footprint)
  /\ construct (SrcPath "hw.ipynb") [] None idle
     = (with_calls [ExecuteNotebook]
          (with_heap [ {| nb := Some (Some homework); nb_path := Some (Some "hw.ipynb");
                          values := Some the_footprint; steps := Some 2 |} ] idle),
        Ok 0%nat).
Proof.
  split; [reflexivity | split; [reflexivity |]].
  apply (construct_from_path "hw.ipynb" [] None homework 2 the_footprint idle); reflexivity.
Defined.

Lemma construct_from_notebook_witness :
  execute_notebook (Some homework) (Some EmptyString) [] None = Ok (2, the_footprint)
  /\ construct (SrcNotebook homework) [] None idle
     = (with_calls [ExecuteNotebook]
          (with_heap [ {| nb := Some (Some homework); nb_path := Some (Some EmptyString);
                          values := Some the_footprint; steps := Some 2 |} ] idle),
        Ok 0%nat).
Proof.
  split; [reflexivity |].
  apply (construct_from_notebook homework [] None 2 the_footprint idle); reflexivity.
Defined.


Lemma check_without_footprint_witness :
  construct SrcNone [] None idle = (lone, Ok 0%nat)
  /\ heap lone !! 0%nat = Some hollow
  /\ values hollow = None
  /\ StudentImplementation_check 0 (PyRef (reference 3)) None lone = (lone, Raised AttributeError).
Proof.
  split; [reflexivity | split; [reflexivity | split; [reflexivity |]]].
  assert (Hself : heap lone !! 0%nat = Some hollow) by reflexivity.
  assert (Hnone : values hollow = None) by reflexivity.
  exact (proj1 (check_without_footprint lone 0 hollow None Hself Hnone) (reference 3)).
Defined.

Lemma validate_gives_reference_list_witness :
  is_str (PyStr "ref.pkl") || is_list (PyStr "ref.pkl") = true
  /\ snd (validate (PyStr "ref.pkl") idle) = Ok (PyList [PyRef (reference 7)])
  /\ exists l, PyList [PyRef (reference 7)] = PyList l /\ l <> [] /\ forallb is_ref l = true.
Proof.
  split; [reflexivity | split; [reflexivity |]].
  apply (validate_gives_reference_list (PyStr "ref.pkl") (PyList [PyRef (reference 7)]) idle);
    reflexivity.
Defined.

Lemma check_reports_in_order_witness :
  tracing idle = None
  /\ py_max (map snd the_footprint) = Ok 2
  /\ stdout (fst (exec (WithCheck (PyList [PyRef (reference 3); PyRef (reference 4)]) no_kwargs
                          (observations the_footprint)) idle))
     = [[3%nat; 4%nat]].
Proof.
  split; [reflexivity | split; [reflexivity |]].
  assert (Hidle : tracing idle = None) by reflexivity.
  assert (Hmax : py_max (map snd the_footprint) = Ok 2) by reflexivity.
  rewrite (check_reports_in_order (reference 3) [reference 4] no_kwargs the_footprint 2 idle
             Hidle Hmax).
  reflexivity.
Defined.

Lemma nested_check_transparent_when_block_raises_witness :
  tracing busy = Some 0%nat
  /\ exec (RaiseStmt (UserException 1)) busy = (busy, Raised (UserException 1))
  /\ exec (WithCheck PyNone no_kwargs (RaiseStmt (UserException 1))) busy
     = (busy, Raised (UserException 1)).
Proof.
  split; [reflexivity | split; [reflexivity |]].
  apply (nested_check_transparent_when_block_raises PyNone no_kwargs _ busy busy 0%nat);
    reflexivity.
Defined.

Lemma nested_check_validates_after_block_witness :
  tracing busy = Some 0%nat
  /\ exec (Observe 1 0) busy = (with_collectors [[(1, 0)]] busy, Ok tt)
  /\ snd (validate (PyList []) (with_collectors [[(1, 0)]] busy)) = Raised ValueError
  /\ exec (WithCheck (PyList []) no_kwargs (Observe 1 0)) busy
     = (with_collectors [[(1, 0)]] busy, Raised ValueError).
Proof.
  split; [reflexivity | split; [reflexivity | split; [reflexivity |]]].
  apply (nested_check_validates_after_block (PyList []) no_kwargs _ busy _ 0%nat);
    reflexivity.
Defined.

Lemma exit_step_count_is_largest_timestamp_witness :
  collectors observed_world !! 0%nat = Some the_footprint
  /\ the_footprint <> []
  /\ exists w' out o m,
       check_from_line206 (PyList [PyRef (reference 3)]) 0 observed_world = (w', out)
       /\ heap w' !! length (heap observed_world) = Some o
       /\ values o = Some the_footprint /\ steps o = Some m
       /\ In m (map snd the_footprint)
       /\ Forall (fun t => t <= m) (map snd the_footprint).
Proof.
  split; [reflexivity | split; [discriminate |]].
  apply exit_step_count_is_largest_timestamp; [reflexivity | discriminate].
Defined.

Lemma dump_writes_one_file_witness :
  heap classroom !! 0%nat = Some the_student
  /\ heap classroom !! 1%nat = Some peer_one
  /\ dill_dumps the_student = Ok [x80; x04]
  /\ dill_dumps peer_one = Ok [x80; x04]
  /\ os_resolve "a.pkl" = Ok "a.pkl"
  /\ os_resolve "b.pkl" = Ok "b.pkl"
  /\ exists w2,
       (dump 0 "a.pkl" ;;; dump 1 "b.pkl") classroom = (w2, Ok tt)
       /\ files w2 !! "b.pkl" = Some [x80; x04]
       /\ ("a.pkl" <> "b.pkl" -> files w2 !! "a.pkl" = Some [x80; x04])
       /\ (forall other, other <> "a.pkl" -> other <> "b.pkl" ->
             files w2 !! other = files classroom !! other)
       /\ heap w2 = heap classroom.
Proof.
  repeat (split; [reflexivity |]).
  apply (dump_writes_one_file classroom 0 1 the_student peer_one [x80; x04] [x80; x04]
           "a.pkl" "b.pkl" "a.pkl" "b.pkl"); reflexivity.
Defined.

Lemma check_plagiarism_without_reference_witness :
  heap classroom !! 0%nat = Some the_student
  /\ create_references (Collaborators := offline) [the_student] no_kwargs = Ok []
  /\ check_plagiarism (Col := offline) 0 [1%nat; 2%nat] no_kwargs classroom
     = (with_calls [CreateReferences 1 no_kwargs] classroom, Raised IndexError).
Proof.
  split; [reflexivity | split; [reflexivity |]].
  apply (check_plagiarism_without_reference (Col := offline) classroom 0 the_student);
    reflexivity.
Defined.

(** The same footprint under another step count, with a notebook and a
    path. *)
Definition restated : StudentImplementation :=
  {| nb := Some (Some homework); nb_path := Some (Some EmptyString);
     values := Some the_footprint; steps := Some 40 |}.

Lemma check_reads_only_the_footprint_witness :
  heap classroom !! 0%nat = Some the_student
  /\ heap (with_heap [restated] busy) !! 0%nat = Some restated
  /\ values the_student = values restated
  /\ snd (StudentImplementation_check 0 (PyList [PyRef (reference 3)]) None classroom)
     = snd (StudentImplementation_check 0 (PyList [PyRef (reference 3)]) None
              (with_heap [restated] busy)).
Proof.
  split; [reflexivity | split; [reflexivity | split; [reflexivity |]]].
  apply (check_reads_only_the_footprint classroom (with_heap [restated] busy) 0 0
           the_student restated); reflexivity.
Defined.

End MoreDemo.

(** * An archive with a pickler that works

    An instance whose [dill] really writes and parses a byte format, and
    whose values may be objects that cannot be pickled. *)

Module Archive.

(** A captured value is a number, or [None] for an object that cannot be
    pickled, such as a generator. *)
#[export] Instance entities : Entities := {|
  Value := option Z;
  Notebook := unit;
  RefImpl := nat;
  Result := nat * nat * option nat;
  Messages := nat;
  Group := nat;
  Kwargs := unit
|}.

(** Numbers, seven bits to a byte, least significant first. *)
Fixpoint put_N (fuel : nat) (n : N) : list byte :=
  match fuel with
  | O => [Base64.to_uchar n]
  | S k =>
      if (n <? 128)%N then [Base64.to_uchar n]
      else Base64.to_uchar (128 + n mod 128)%N :: put_N k (n / 128)%N
  end.

Fixpoint get_N (bs : list byte) : option (N * list byte) :=
  match bs with
  | [] => None
  | b :: rest =>
      let x := Byte.to_N b in
      if (x <? 128)%N then Some (x, rest)
      else
        match get_N rest with
        | Some (high, rest') => Some ((x - 128) + 128 * high, rest')%N
        | None => None
        end
  end.

Definition put_Z (z : Z) : list byte :=
  (if z <? 0 then x01 else x00) :: put_N (N.to_nat (N.size (Z.abs_N z))) (Z.abs_N z).

Definition get_Z (bs : list byte) : option (Z * list byte) :=
  match bs with
  | [] => None
  | sign :: rest =>
      match get_N rest with
      | Some (n, rest') =>
          Some (if Byte.eqb sign x01 then - Z.of_N n else Z.of_N n, rest')
      | None => None
      end
  end.

Definition put_string (s : string) : list byte :=
  put_N 64 (N.of_nat (String.length s)) ++ list_byte_of_string s.

Definition get_string (bs : list byte) : option (string * list byte) :=
  match get_N bs with
  | Some (n, rest) =>
      if (N.to_nat n <=? length rest)%nat
      then Some (string_of_list_byte (firstn (N.to_nat n) rest), skipn (N.to_nat n) rest)
      else None
  | None => None
  end.

Definition put_item (item : option Z * Z) : list byte :=
  match item with
  | (Some v, t) => put_Z v ++ put_Z t
  | (None, t) => []
  end.

Fixpoint get_items (count : nat) (bs : list byte) : option (footprint * list byte) :=
  match count with
  | O => Some ([], bs)
  | S k =>
      match get_Z bs with
      | Some (v, rest) =>
          match get_Z rest with
          | Some (t, rest') =>
              match get_items k rest' with
              | Some (items, rest'') => Some ((Some v, t) :: items, rest'')
              | None => None
              end
          | None => None
          end
      | None => None
      end
  end.

(** The pickle of an object: a header, its four attributes each behind a
    tag that says whether it was ever assigned, and a stop byte. *)
Definition pickle (o : StudentImplementation) : list byte :=
  [x80; x04]
  ++ match nb o with
     | None => [x00]
     | Some None => [x01]
     | Some (Some tt) => [x02]
     end
  ++ match nb_path o with
     | None => [x00]
     | Some None => [x01]
     | Some (Some path) => x02 :: put_string path
     end
  ++ match values o with
     | None => [x00]
     | Some fp => x01 :: put_N 64 (N.of_nat (length fp)) ++ concat (map put_item fp)
     end
  ++ match steps o with
     | None => [x00]
     | Some n => x01 :: put_Z n
     end
  ++ [x2e].

Definition get_nb (bs : list byte) : option (option (option unit) * list byte) :=
  match bs with
  | x00 :: rest => Some (None, rest)
  | x01 :: rest => Some (Some None, rest)
  | x02 :: rest => Some (Some (Some tt), rest)
  | _ => None
  end.

Definition get_path (bs : list byte) : option (option (option string) * list byte) :=
  match bs with
  | x00 :: rest => Some (None, rest)
  | x01 :: rest => Some (Some None, rest)
  | x02 :: rest =>
      match get_string rest with
      | Some (path, rest') => Some (Some (Some path), rest')
      | None => None
      end
  | _ => None
  end.

Definition get_values (bs : list byte) : option (option footprint * list byte) :=
  match bs with
  | x00 :: rest => Some (None, rest)
  | x01 :: rest =>
      match get_N rest with
      | Some (count, rest') =>
          match get_items (N.to_nat count) rest' with
          | Some (fp, rest'') => Some (Some fp, rest'')
          | None => None
          end
      | None => None
      end
  | _ => None
  end.

Definition get_steps (bs : list byte) : option (option Z * list byte) :=
  match bs with
  | x00 :: rest => Some (None, rest)
  | x01 :: rest =>
      match get_Z rest with
      | Some (n, rest') => Some (Some n, rest')
      | None => None
      end
  | _ => None
  end.

Definition unpickle (bs : list byte) : option StudentImplementation :=
  match bs with
  | x80 :: x04 :: rest =>
      match get_nb rest with
      | Some (the_nb, rest1) =>
          match get_path rest1 with
          | Some (the_path, rest2) =>
              match get_values rest2 with
              | Some (the_values, rest3) =>
                  match get_steps rest3 with
                  | Some (the_steps, [x2e]) =>
                      Some {| nb := the_nb; nb_path := the_path;
                              values := the_values; steps := the_steps |}
                  | _ => None
                  end
              | None => None
              end
          | None => None
          end
      | None => None
      end
  | _ => None
  end.

Definition picklable (o : StudentImplementation) : bool :=
  match values o with
  | Some fp => forallb (fun item => bool_decide (is_Some (fst item))) fp
  | None => true
  end.

#[export] Instance collaborators : Collaborators := {|
  ref_run := fun r fp g => (r, length fp, g);
  ref_load := fun s => Ok (String.length s);
  ref_iter := fun _ => Raised TypeError;
  result_messages := fun x => fst (fst x);
  nbformat_read := fun _ _ => Ok tt;
  execute_notebook := fun _ _ _ _ => Ok (0, []);
  os_resolve := fun path =>
    if String.eqb path EmptyString then Raised FileNotFoundError else Ok path;
  dill_dumps := fun o => if picklable o then Ok (pickle o) else Raised TypeError;
  dill_partial := fun _ => [x80; x04];
  dill_loads := fun bits =>
    match unpickle bits with
    | Some o => place_object o
    | None => raise UnpicklingError
    end;
  create_references := fun l _ => Ok (map (fun _ => 7%nat) l);
  peer_result := fun r p _ => (r, length (default [] (values p)), None)
|}.

Definition reference (n : nat) : RefImpl := n.

Definition kept_footprint : footprint := [(Some 1, 0); (Some 2, 1); (Some (-300), 2)].

(** An artifact of numbers, and one that has observed a generator. *)
Definition kept : StudentImplementation :=
  {| nb := Some None; nb_path := Some None; values := Some kept_footprint; steps := Some 2 |}.


Example pickle_then_unpickle : unpickle (pickle kept) = Some kept.
Proof. vm_compute. reflexivity. Qed.

Example unpickle_rejects_garbage : unpickle [x80; x04; x07] = None.
Proof. reflexivity. Qed.



End Archive.
